(** * The Windows launcher glue of [src/launcher/java_md.c]

    A shallow embedding of the platform-dependent part of the Java
    launcher: discovery of the JRE home ([GetApplicationHome],
    [GetJREPath], [GetPublicJREHome]), construction of the JVM library
    path ([GetJVMPath]), loading of the library ([LoadJavaVM]) and the
    interval timer ([CounterGet], [Counter2Micros]).

    The operating system is a record of oracles ([Win32]); every call the
    C code makes to it is logged in the process state, next to the two
    output streams, the open registry keys and the three file-scope
    statics of the timer.  A C function is a computation in the monad
    [M]: it threads the process state and may fault (a null pointer
    dereference, an overrun of a local array, a division that traps). *)

From Stdlib Require Import ZArith List Bool Ascii String Lia.
Import ListNotations.

Open Scope string_scope.
Open Scope Z_scope.

(** ** C strings *)

(** The line feed that C writes as backslash-n. *)
Definition nl : string := String (ascii_of_nat 10) EmptyString.

(** The path separator of the source, written there as an escaped
    backslash. *)
Definition backslash : ascii := ascii_of_nat 92.

(** [strrchr s c]: the offset of the last occurrence of [c] in [s], or
    [None] for the null pointer ([c] is never the terminator here). *)
Fixpoint strrchr (s : string) (c : ascii) : option nat :=
  match s with
  | EmptyString => None
  | String a s' =>
      match strrchr s' c with
      | Some i => Some (S i)
      | None => if Ascii.eqb a c then Some O else None
      end
  end.

(** [terminate_at i s]: the C string left in a buffer holding [s] after
    the terminator is stored at offset [i]. *)
Fixpoint terminate_at (i : nat) (s : string) : string :=
  match i, s with
  | O, _ => EmptyString
  | S _, EmptyString => EmptyString
  | S i', String a s' => String a (terminate_at i' s')
  end.

(** ** Machine integers *)

(** [(unsigned int) x] for a 32-bit [jint]. *)
Definition uint32 (x : Z) : Z := x mod 2 ^ 32.

(** A value brought back into the range of the signed 64-bit [jlong]
    (two's complement wrap-around of the product and of the quotient). *)
Definition wrap64 (x : Z) : Z := (x + 2 ^ 63) mod 2 ^ 64 - 2 ^ 63.

(** The implicit conversion of a Win32 [BOOL] (an [int]) to the 8-bit
    unsigned [jboolean] of jni.h. *)
Definition jboolean_of_BOOL (r : Z) : Z := r mod 2 ^ 8.

(** ** The operating system *)

Definition HKEY := Z.
Definition HINSTANCE := Z.
Definition FARPROC := Z.

Definition HKEY_LOCAL_MACHINE : HKEY := 2147483650.
Definition REG_SZ : Z := 1.

(** The Win32 and C library calls of the file, as oracles.  A status or
    handle is the integer the C code compares with zero.  The timer
    calls take the number of earlier calls of the same kind, so that
    their answer may change from one call to the next. *)
Record Win32 : Type := mkWin32 {
  (** [GetModuleFileName(h, buf, size)]: the C string left in [buf]. *)
  GetModuleFileName : Z -> Z -> string;
  (** [GetModuleHandle(name)]. *)
  GetModuleHandle : string -> Z;
  (** [stat(path, &s)]: the return code. *)
  stat : string -> Z;
  (** [RegOpenKeyEx(parent, subkey, 0, KEY_READ, &key)]: status and key. *)
  RegOpenKeyEx : HKEY -> string -> Z * HKEY;
  (** [RegQueryValueEx(key, name, 0, &type, 0, &size)]: status, type, size. *)
  RegQueryValueEx_info : HKEY -> string -> Z * Z * Z;
  (** [RegQueryValueEx(key, name, 0, 0, buf, &size)]: status and the C
      string stored in [buf] when the status is zero. *)
  RegQueryValueEx_data : HKEY -> string -> Z -> Z * string;
  (** [LoadLibrary(path)]: the module handle, zero on failure. *)
  LoadLibrary : string -> HINSTANCE;
  (** [GetProcAddress(handle, symbol)]: the address, zero when absent. *)
  GetProcAddress : HINSTANCE -> string -> FARPROC;
  (** [QueryPerformanceFrequency(&f)]: the [BOOL] result and [f.QuadPart]. *)
  QueryPerformanceFrequency : nat -> Z * Z;
  (** [QueryPerformanceCounter(&count)]: [count.QuadPart]. *)
  QueryPerformanceCounter : nat -> Z
}.

(** The calls made to the operating system, in the order made. *)
Inductive Event : Type :=
| EvGetModuleFileName (h : Z) (size : Z)
| EvGetModuleHandle (name : string)
| EvStat (path : string)
| EvRegOpenKeyEx (parent : HKEY) (subkey : string)
| EvRegQueryValueEx (key : HKEY) (name : string) (with_data : bool)
| EvRegCloseKey (key : HKEY)
| EvLoadLibrary (path : string)
| EvGetProcAddress (handle : HINSTANCE) (symbol : string)
| EvQueryPerformanceFrequency
| EvQueryPerformanceCounter.

(** ** The process state *)

Record State : Type := mkState {
  os_calls : list Event;
  open_keys : list HKEY;
  loaded_libraries : list HINSTANCE;
  stderr : string;
  stdout : string;
  counterAvailable : Z;
  counterInitialized : bool;
  counterFrequency : Z
}.

(** The state of a fresh process: the statics as the C file initialises
    them ([JNI_FALSE], [JNI_FALSE], zero). *)
Definition initial_state : State :=
  mkState [] [] [] "" "" 0 false 0.

Definition with_os_calls (f : list Event -> list Event) (st : State) : State :=
  mkState (f (os_calls st)) (open_keys st) (loaded_libraries st)
          (stderr st) (stdout st)
          (counterAvailable st) (counterInitialized st) (counterFrequency st).

Definition with_open_keys (f : list HKEY -> list HKEY) (st : State) : State :=
  mkState (os_calls st) (f (open_keys st)) (loaded_libraries st)
          (stderr st) (stdout st)
          (counterAvailable st) (counterInitialized st) (counterFrequency st).

Definition with_loaded_libraries (f : list HINSTANCE -> list HINSTANCE)
    (st : State) : State :=
  mkState (os_calls st) (open_keys st) (f (loaded_libraries st))
          (stderr st) (stdout st)
          (counterAvailable st) (counterInitialized st) (counterFrequency st).

Definition with_stderr (f : string -> string) (st : State) : State :=
  mkState (os_calls st) (open_keys st) (loaded_libraries st)
          (f (stderr st)) (stdout st)
          (counterAvailable st) (counterInitialized st) (counterFrequency st).

Definition with_stdout (f : string -> string) (st : State) : State :=
  mkState (os_calls st) (open_keys st) (loaded_libraries st)
          (stderr st) (f (stdout st))
          (counterAvailable st) (counterInitialized st) (counterFrequency st).

Definition with_calibration (avail : Z) (init : bool) (freq : Z)
    (st : State) : State :=
  mkState (os_calls st) (open_keys st) (loaded_libraries st)
          (stderr st) (stdout st) avail init freq.

(** ** The monad of C computations *)

Definition M (A : Type) : Type := State -> option (A * State).

Definition ret {A : Type} (a : A) : M A := fun st => Some (a, st).

Definition bind {A B : Type} (m : M A) (k : A -> M B) : M B :=
  fun st =>
    match m st with
    | Some (a, st') => k a st'
    | None => None
    end.

(** Undefined behaviour that stops the process. *)
Definition fault {A : Type} : M A := fun _ => None.

Definition get : M State := fun st => Some (st, st).

Definition modify (f : State -> State) : M unit := fun st => Some (tt, f st).

Declare Scope c_scope.
Delimit Scope c_scope with c.

Notation "x <- m ;; k" := (bind m (fun x => k))
  (at level 100, m at next level, right associativity) : c_scope.
Notation "' p <- m ;; k" := (bind m (fun x => match x with p => k end))
  (at level 100, p pattern, m at next level, right associativity) : c_scope.
Notation "m ;;; k" := (bind m (fun _ => k))
  (at level 100, right associativity) : c_scope.

Open Scope c_scope.

Definition log (e : Event) : M unit :=
  modify (with_os_calls (fun t => (t ++ [e])%list)).

(** [fprintf(stderr, ...)] and [printf(...)] with the formatted text. *)
Definition fprintf_stderr (s : string) : M unit :=
  modify (with_stderr (fun out => out ++ s)).

Definition printf (s : string) : M unit :=
  modify (with_stdout (fun out => out ++ s)).

(** Whether the C string [s], with its terminator, fits an array of
    [capacity] bytes. *)
Definition fits (capacity : Z) (s : string) : bool :=
  Z.of_nat (String.length s) + 1 <=? capacity.

(** [sprintf] of the formatted text [s] into a local array of [capacity]
    bytes: the call checks nothing, and a text that does not fit
    overruns the array, which stops the process. *)
Definition sprintf (capacity : Z) (s : string) : M string :=
  if fits capacity s then ret s else fault.

(** Removal of one occurrence of a handle from the open ones. *)
Fixpoint release (h : Z) (l : list Z) : list Z :=
  match l with
  | [] => []
  | x :: l' => if x =? h then l' else x :: release h l'
  end.

(** The number of events of a trace that satisfy [p]. *)
Definition count_events (p : Event -> bool) (t : list Event) : nat :=
  List.length (List.filter p t).

Definition is_frequency_query (e : Event) : bool :=
  match e with EvQueryPerformanceFrequency => true | _ => false end.

Definition is_counter_query (e : Event) : bool :=
  match e with EvQueryPerformanceCounter => true | _ => false end.

Definition is_stat (e : Event) : bool :=
  match e with EvStat _ => true | _ => false end.

Definition is_registry_call (e : Event) : bool :=
  match e with
  | EvRegOpenKeyEx _ _ | EvRegQueryValueEx _ _ _ | EvRegCloseKey _ => true
  | _ => false
  end.

(** The registry helpers' constants. *)
Definition JRE_KEY : string := "Software\JavaSoft\Java Runtime Environment".
Definition DOTRELEASE : string := "1.3".

(** The opening of the registry key of the public JRE: the first step
    of the registry probe, made once per probe. *)
Definition is_public_jre_probe (e : Event) : bool :=
  match e with
  | EvRegOpenKeyEx parent subkey =>
      (parent =? HKEY_LOCAL_MACHINE)
      && String.eqb subkey JRE_KEY
  | _ => false
  end.

(** ** The functions of java_md.c *)

(** The table of entry points that [LoadJavaVM] fills in (java.h). *)
Record InvocationFunctions : Type := mkInvocationFunctions {
  CreateJavaVM : FARPROC;
  GetDefaultJavaVMInitArgs : FARPROC
}.


(** The contents of a local array before the code first writes it; the
    code never reads an array in that state. *)
Definition uninitialized : string := "".

Section Launcher.

(** Whether the file is compiled with [DEBUG] defined. *)
Variable DEBUG : bool.
(** [MAXPATHLEN], from the platform header. *)
Variable MAXPATHLEN : Z.
(** The launcher's run-time [debug] flag, owned by java.c. *)
Variable debug : bool.
Variable os : Win32.

Definition JVM_DLL : string := if DEBUG then "jvm_g.dll" else "jvm.dll".
Definition JAVA_DLL : string := if DEBUG then "java_g.dll" else "java.dll".

(** *** System calls, logged *)

Definition sys_GetModuleFileName (h size : Z) : M string :=
  log (EvGetModuleFileName h size) ;;;
  ret (GetModuleFileName os h size).

Definition sys_GetModuleHandle (name : string) : M Z :=
  log (EvGetModuleHandle name) ;;;
  ret (GetModuleHandle os name).

Definition sys_stat (path : string) : M Z :=
  log (EvStat path) ;;;
  ret (stat os path).

Definition sys_RegOpenKeyEx (parent : HKEY) (subkey : string) : M (Z * HKEY) :=
  log (EvRegOpenKeyEx parent subkey) ;;;
  let r := RegOpenKeyEx os parent subkey in
  (if fst r =? 0 then modify (with_open_keys (cons (snd r))) else ret tt) ;;;
  ret r.

Definition sys_RegCloseKey (key : HKEY) : M unit :=
  log (EvRegCloseKey key) ;;;
  modify (with_open_keys (release key)).

Definition sys_RegQueryValueEx_info (key : HKEY) (name : string)
    : M (Z * Z * Z) :=
  log (EvRegQueryValueEx key name false) ;;;
  ret (RegQueryValueEx_info os key name).

Definition sys_RegQueryValueEx_data (key : HKEY) (name : string) (size : Z)
    : M (Z * string) :=
  log (EvRegQueryValueEx key name true) ;;;
  ret (RegQueryValueEx_data os key name size).

Definition sys_LoadLibrary (path : string) : M HINSTANCE :=
  log (EvLoadLibrary path) ;;;
  let h := LoadLibrary os path in
  (if h =? 0 then ret tt else modify (with_loaded_libraries (cons h))) ;;;
  ret h.

Definition sys_GetProcAddress (handle : HINSTANCE) (symbol : string)
    : M FARPROC :=
  log (EvGetProcAddress handle symbol) ;;;
  ret (GetProcAddress os handle symbol).

Definition sys_QueryPerformanceFrequency : M (Z * Z) :=
  st <- get ;;
  log EvQueryPerformanceFrequency ;;;
  ret (QueryPerformanceFrequency os
         (count_events is_frequency_query (os_calls st))).

Definition sys_QueryPerformanceCounter : M Z :=
  st <- get ;;
  log EvQueryPerformanceCounter ;;;
  ret (QueryPerformanceCounter os
         (count_events is_counter_query (os_calls st))).

(** *** ReadJVMLink: win32 has no symbolic links, the result is NULL. *)
Definition ReadJVMLink (jrepath jvmtype : string) (knownVMs : list string)
    (knownVMsCount : Z) : option string :=
  None.

(** *** GetApplicationHome

    [buf] is written before it is read, so only its new contents are
    returned.  The first [strrchr] result is dereferenced unchecked. *)
Definition GetApplicationHome (bufsize : Z) : M (bool * string) :=
  buf <- sys_GetModuleFileName 0 bufsize ;;
  match strrchr buf backslash with
  | None => fault
  | Some i =>
      let buf := terminate_at i buf in
      match strrchr buf backslash with
      | None => ret (false, "")
      | Some cp => ret (true, terminate_at cp buf)
      end
  end.

(** *** GetXUsagePath *)
Definition GetXUsagePath (bufsize : Z) : M string :=
  h <- sys_GetModuleHandle JVM_DLL ;;
  buf <- sys_GetModuleFileName h bufsize ;;
  match strrchr buf backslash with
  | None => fault
  | Some i => ret (terminate_at i buf ++ "\Xusage.txt")
  end.

(** *** GetStringFromRegistry

    The result pairs the [jboolean] with the contents of [buf]. *)
Definition GetStringFromRegistry (key : HKEY) (name : string)
    (buf : string) (bufsize : Z) : M (bool * string) :=
  '(rc, type, size) <- sys_RegQueryValueEx_info key name ;;
  if (rc =? 0) && (type =? REG_SZ) && (size <? uint32 bufsize) then
    '(rc2, data) <- sys_RegQueryValueEx_data key name size ;;
    if rc2 =? 0 then ret (true, data) else ret (false, buf)
  else ret (false, buf).

(** *** GetPublicJREHome *)
Definition GetPublicJREHome (buf : string) (bufsize : Z)
    : M (bool * string) :=
  '(rc, key) <- sys_RegOpenKeyEx HKEY_LOCAL_MACHINE JRE_KEY ;;
  if negb (rc =? 0) then
    fprintf_stderr ("Error opening registry key '" ++ JRE_KEY ++ "'" ++ nl) ;;;
    ret (false, buf)
  else
    '(ok, version) <-
       GetStringFromRegistry key "CurrentVersion" uninitialized MAXPATHLEN ;;
    if negb ok then
      fprintf_stderr ("Failed reading value of registry key:" ++ nl
                      ++ String (ascii_of_nat 9) JRE_KEY
                      ++ "\CurrentVersion" ++ nl) ;;;
      sys_RegCloseKey key ;;;
      ret (false, buf)
    else if negb (String.eqb version DOTRELEASE) then
      fprintf_stderr ("Registry key '" ++ JRE_KEY ++ "\CurrentVersion'" ++ nl
                      ++ "has value '" ++ version ++ "', but '"
                      ++ DOTRELEASE ++ "' is required." ++ nl) ;;;
      sys_RegCloseKey key ;;;
      ret (false, buf)
    else
      '(rc', subkey) <- sys_RegOpenKeyEx key version ;;
      if negb (rc' =? 0) then
        fprintf_stderr ("Error opening registry key '" ++ JRE_KEY ++ "\"
                        ++ version ++ "'" ++ nl) ;;;
        sys_RegCloseKey key ;;;
        ret (false, buf)
      else
        '(ok', buf') <- GetStringFromRegistry subkey "JavaHome" buf bufsize ;;
        if negb ok' then
          fprintf_stderr ("Failed reading value of registry key:" ++ nl
                          ++ String (ascii_of_nat 9) JRE_KEY ++ "\"
                          ++ version ++ "\JavaHome" ++ nl) ;;;
          sys_RegCloseKey key ;;;
          sys_RegCloseKey subkey ;;;
          ret (false, buf')
        else
          (if debug then
             '(okm, micro) <-
                GetStringFromRegistry subkey "MicroVersion" uninitialized
                                      MAXPATHLEN ;;
             micro' <- (if negb okm then
                          printf ("Warning: Can't read MicroVersion" ++ nl) ;;;
                          ret ""
                        else ret micro) ;;
             printf ("Version major.minor.micro = " ++ version ++ "."
                     ++ micro' ++ nl)
           else ret tt) ;;;
          sys_RegCloseKey key ;;;
          sys_RegCloseKey subkey ;;;
          ret (true, buf').

(** *** GetJREPath

    [path] is first written by [GetApplicationHome]; [javadll] is the
    local array of [MAXPATHLEN] bytes. *)
Definition GetJREPath (pathsize : Z) : M (bool * string) :=
  let found (path : string) : M (bool * string) :=
    (if debug then printf ("JRE path is " ++ path ++ nl) else ret tt) ;;;
    ret (true, path) in
  let public (path : string) : M (bool * string) :=
    '(ok, path') <- GetPublicJREHome path pathsize ;;
    if ok then found path'
    else
      fprintf_stderr ("Error: could not find " ++ JAVA_DLL ++ nl) ;;;
      ret (false, path') in
  '(ok, path) <- GetApplicationHome pathsize ;;
  if ok then
    javadll <- sprintf MAXPATHLEN (path ++ "\bin\" ++ JAVA_DLL) ;;
    rc <- sys_stat javadll ;;
    if rc =? 0 then found path
    else
      javadll <- sprintf MAXPATHLEN (path ++ "\jre\bin\" ++ JAVA_DLL) ;;
      rc' <- sys_stat javadll ;;
      if rc' =? 0 then found (path ++ "\jre")
      else public path
  else public path.

(** *** GetJVMPath

    The result pairs the [jboolean] with the contents of [jvmpath]. *)
Definition GetJVMPath (jrepath jvmtype : string) (jvmpathsize : Z)
    : M (bool * string) :=
  let jvmpath := jrepath ++ "\bin\" ++ jvmtype ++ "\" ++ JVM_DLL in
  rc <- sys_stat jvmpath ;;
  if rc =? 0 then ret (true, jvmpath) else ret (false, jvmpath).

(** *** LoadJavaVM

    The result pairs the [jboolean] with the table behind [ifn]. *)
Definition LoadJavaVM (jvmpath : string) (ifn : InvocationFunctions)
    : M (bool * InvocationFunctions) :=
  (if debug then printf ("JVM path is " ++ jvmpath ++ nl) else ret tt) ;;;
  handle <- sys_LoadLibrary jvmpath ;;
  if handle =? 0 then
    fprintf_stderr ("Error loading: " ++ jvmpath ++ nl) ;;;
    ret (false, ifn)
  else
    create <- sys_GetProcAddress handle "JNI_CreateJavaVM" ;;
    let ifn := mkInvocationFunctions create (GetDefaultJavaVMInitArgs ifn) in
    args <- sys_GetProcAddress handle "JNI_GetDefaultJavaVMInitArgs" ;;
    let ifn := mkInvocationFunctions (CreateJavaVM ifn) args in
    if (CreateJavaVM ifn =? 0) || (GetDefaultJavaVMInitArgs ifn =? 0) then
      fprintf_stderr ("Error: can't find JNI interfaces in: " ++ jvmpath ++ nl) ;;;
      ret (false, ifn)
    else ret (true, ifn).

(** *** The interval timer *)

Definition CounterGet : M Z :=
  st <- get ;;
  (if negb (counterInitialized st) then
     '(r, f) <- sys_QueryPerformanceFrequency ;;
     modify (with_calibration (jboolean_of_BOOL r) true f)
   else ret tt) ;;;
  st' <- get ;;
  if counterAvailable st' =? 0 then ret 0
  else
    count <- sys_QueryPerformanceCounter ;;
    ret count.

(** The product wraps in 64 bits; the division faults on a zero
    divisor and on the one quotient that does not fit, that of the least
    [jlong] by minus one. *)
Definition Counter2Micros (counts : Z) : M Z :=
  st <- get ;;
  if (counterAvailable st =? 0) || negb (counterInitialized st) then ret 0
  else if counterFrequency st =? 0 then fault
  else if (wrap64 (wrap64 (counts * 1000) * 1000) =? - 2 ^ 63)
          && (counterFrequency st =? -1) then fault
  else ret (wrap64 (Z.quot (wrap64 (wrap64 (counts * 1000) * 1000))
                           (counterFrequency st))).

End Launcher.

(** ** A sample machine

    A concrete operating system on which the functions can be run: the
    launcher is [exe], the files of [files] exist, the registry holds a
    JRE key with [CurrentVersion = version] and, under the child key
    named "1.3", [JavaHome = javahome]; the library at [jvm] exports the
    symbols of [exports]; the performance counter answers from [freq]. *)
Module Sample.

Fixpoint mem (s : string) (l : list string) : bool :=
  match l with
  | [] => false
  | x :: l' => String.eqb x s || mem s l'
  end.

Definition root_key : HKEY := 100.
Definition child_key : HKEY := 101.
Definition jvm_handle : HINSTANCE := 4194304.

Definition size_of (s : string) : Z := Z.of_nat (String.length s) + 1.

Definition machine (exe : string) (files : list string)
    (version javahome : string) (jvm : string) (exports : list string)
    (freq : nat -> Z * Z) : Win32 :=
  {| GetModuleFileName := fun _ _ => exe;
     GetModuleHandle := fun _ => jvm_handle;
     stat := fun p => if mem p files then 0 else -1;
     RegOpenKeyEx := fun parent sub =>
       if (parent =? HKEY_LOCAL_MACHINE) && String.eqb sub JRE_KEY
       then (0, root_key)
       else if (parent =? root_key) && String.eqb sub "1.3"
       then (0, child_key)
       else (2, 0);
     RegQueryValueEx_info := fun key name =>
       if (key =? root_key) && String.eqb name "CurrentVersion"
       then (0, REG_SZ, size_of version)
       else if (key =? child_key) && String.eqb name "JavaHome"
       then (0, REG_SZ, size_of javahome)
       else (2, 0, 0);
     RegQueryValueEx_data := fun key name _ =>
       if (key =? root_key) && String.eqb name "CurrentVersion"
       then (0, version)
       else if (key =? child_key) && String.eqb name "JavaHome"
       then (0, javahome)
       else (2, "");
     LoadLibrary := fun p => if String.eqb p jvm then jvm_handle else 0;
     GetProcAddress := fun h sym =>
       if (h =? jvm_handle) && mem sym exports
       then 4198400 + Z.of_nat (String.length sym) else 0;
     QueryPerformanceFrequency := freq;
     QueryPerformanceCounter := fun n => 1000 * Z.of_nat (S n) |}.

End Sample.

(** ** Paths as lists of segments

    What the specification calls the segments of a path: the pieces
    between backslashes, the last one being the file name. *)

Fixpoint segments (s : string) : list string :=
  match s with
  | EmptyString => [EmptyString]
  | String a s' =>
      if Ascii.eqb a backslash then EmptyString :: segments s'
      else match segments s' with
           | seg :: rest => String a seg :: rest
           | [] => [String a EmptyString]
           end
  end.

Fixpoint join_path (l : list string) : string :=
  match l with
  | [] => EmptyString
  | [x] => x
  | x :: l' => x ++ String backslash (join_path l')
  end.

(** The number of segments that precede the file name. *)
Definition segments_before_file (p : string) : nat :=
  (List.length (segments p) - 1)%nat.

(** The path without its last two segments. *)
Definition strip_two_segments (p : string) : string :=
  join_path (removelast (removelast (segments p))).

(** ** A client of the timer: any sequence of calls *)

Inductive TimerCall : Type :=
| CallCounterGet
| CallCounter2Micros (counts : Z).

Definition timer_call (os : Win32) (c : TimerCall) : M Z :=
  match c with
  | CallCounterGet => CounterGet os
  | CallCounter2Micros counts => Counter2Micros counts
  end.

Fixpoint timer_calls (os : Win32) (cs : list TimerCall) : M (list Z) :=
  match cs with
  | [] => ret []
  | c :: cs' =>
      r <- timer_call os c ;;
      rs <- timer_calls os cs' ;;
      ret (r :: rs)
  end.

(** The calibration cache: the three statics of the timer. *)
Definition calibration (st : State) : Z * bool * Z :=
  (counterAvailable st, counterInitialized st, counterFrequency st).

(** ** Instances of the sample machine *)
Module Machines.

Definition javahome : string := "C:\Program Files\JavaSoft\JRE\1.3".
Definition jvm : string := "c:\foo\bin\client\jvm.dll".
Definition both_symbols : list string :=
  ["JNI_CreateJavaVM"; "JNI_GetDefaultJavaVMInitArgs"].
Definition megahertz (n : nat) : Z * Z := (1, 1000000).

(** The launcher in [c:\foo\bin], next to a co-located JRE and a
    private one. *)
Definition colocated : Win32 :=
  Sample.machine "c:\foo\bin\javac.exe"
    ["c:\foo\bin\java.dll"; "c:\foo\jre\bin\java.dll"; jvm]
    "1.3" javahome jvm both_symbols megahertz.

(** The launcher in [c:\foo\bin] with a private JRE only. *)
Definition private_jre : Win32 :=
  Sample.machine "c:\foo\bin\javac.exe" ["c:\foo\jre\bin\java.dll"]
    "1.3" javahome jvm both_symbols megahertz.

(** No local JRE; the registry names a public one. *)
Definition public_jre : Win32 :=
  Sample.machine "c:\foo\bin\javac.exe" []
    "1.3" javahome jvm both_symbols megahertz.

(** The launcher in a drive root. *)
Definition drive_root : Win32 :=
  Sample.machine "c:\javac.exe" []
    "1.3" javahome jvm both_symbols megahertz.

(** A module file name without any backslash. *)
Definition bare_name : Win32 :=
  Sample.machine "javac.exe" []
    "1.3" javahome jvm both_symbols megahertz.

(** The registry names version 1.4. *)
Definition newer_release : Win32 :=
  Sample.machine "c:\foo\bin\javac.exe" []
    "1.4" javahome jvm both_symbols megahertz.

(** A library that exports none of the two entry points. *)
Definition no_symbols : Win32 :=
  Sample.machine "c:\foo\bin\javac.exe" [jvm]
    "1.3" javahome jvm [] megahertz.

(** A library that exports [JNI_CreateJavaVM] only. *)
Definition one_symbol : Win32 :=
  Sample.machine "c:\foo\bin\javac.exe" [jvm]
    "1.3" javahome jvm ["JNI_CreateJavaVM"] megahertz.

(** A counter of ten terahertz. *)
Definition ten_terahertz : Win32 :=
  Sample.machine "c:\foo\bin\javac.exe" []
    "1.3" javahome jvm both_symbols (fun _ => (1, 10000000000000)).

(** The frequency query fails the first time and would succeed on any
    later attempt. *)
Definition no_counter_at_first : Win32 :=
  Sample.machine "c:\foo\bin\javac.exe" []
    "1.3" javahome jvm both_symbols
    (fun n => match n with O => (0, 0) | S _ => (1, 1000000) end).

End Machines.

(** A string of [n] copies of [c]. *)
Fixpoint replicate (n : nat) (c : ascii) : string :=
  match n with
  | O => EmptyString
  | S n' => String c (replicate n' c)
  end.

(** A directory whose name has 255 characters, and a launcher two
    levels below it whose module name has 259. *)
Definition long_home : string := "c:\" ++ replicate 252 "a"%char.

Definition long_launcher : Win32 :=
  Sample.machine (long_home ++ "\b\j") []
    "1.3" Machines.javahome Machines.jvm Machines.both_symbols
    Machines.megahertz.

(** A machine like [Machines.public_jre] whose registry has no JRE key. *)
Definition no_registered_jre : Win32 :=
  {| GetModuleFileName := GetModuleFileName Machines.public_jre;
     GetModuleHandle := GetModuleHandle Machines.public_jre;
     stat := stat Machines.public_jre;
     RegOpenKeyEx := fun _ _ => (2, 0);
     RegQueryValueEx_info := fun _ _ => (2, 0, 0);
     RegQueryValueEx_data := fun _ _ _ => (2, "");
     LoadLibrary := LoadLibrary Machines.public_jre;
     GetProcAddress := GetProcAddress Machines.public_jre;
     QueryPerformanceFrequency := QueryPerformanceFrequency Machines.public_jre;
     QueryPerformanceCounter := QueryPerformanceCounter Machines.public_jre |}.

(** ** What the registry must hold for the probe to succeed

    The JRE key opens, its CurrentVersion is a string that fits the
    version buffer and reads "1.3", the child key of that name opens,
    and its JavaHome is a string that fits the caller's buffer and reads
    [home]. *)
Definition registered_jre_home (os : Win32) (MAXPATHLEN bufsize : Z)
    (home : string) : Prop :=
  exists (key : HKEY) (size : Z) (subkey : HKEY) (size' : Z),
    RegOpenKeyEx os HKEY_LOCAL_MACHINE JRE_KEY = (0, key)
    /\ RegQueryValueEx_info os key "CurrentVersion" = (0, REG_SZ, size)
    /\ size < uint32 MAXPATHLEN
    /\ RegQueryValueEx_data os key "CurrentVersion" size = (0, DOTRELEASE)
    /\ RegOpenKeyEx os key DOTRELEASE = (0, subkey)
    /\ RegQueryValueEx_info os subkey "JavaHome" = (0, REG_SZ, size')
    /\ size' < uint32 bufsize
    /\ RegQueryValueEx_data os subkey "JavaHome" size' = (0, home).

(** * Properties *)

(** Symbolic execution of a computation: the monad, the logged system
    calls and the state updates are unfolded, the strings are not. *)
Ltac run_c :=
  cbv beta iota zeta delta
    [bind ret fault get modify log fprintf_stderr printf sprintf
     sys_GetModuleFileName sys_GetModuleHandle sys_stat
     sys_RegOpenKeyEx sys_RegCloseKey
     sys_RegQueryValueEx_info sys_RegQueryValueEx_data
     sys_LoadLibrary sys_GetProcAddress
     sys_QueryPerformanceFrequency sys_QueryPerformanceCounter
     with_os_calls with_open_keys with_loaded_libraries
     with_stderr with_stdout with_calibration JVM_DLL JAVA_DLL];
  cbn [os_calls open_keys loaded_libraries stderr stdout
       counterAvailable counterInitialized counterFrequency
       CreateJavaVM GetDefaultJavaVMInitArgs fst snd negb andb orb].

(** Case analysis on the next answer of the registry or the next test. *)
Ltac break_cond :=
  match goal with
  | |- context [RegOpenKeyEx ?o ?a ?b] =>
      destruct (RegOpenKeyEx o a b) as [? ?] eqn:?
  | |- context [RegQueryValueEx_info ?o ?a ?b] =>
      destruct (RegQueryValueEx_info o a b) as [[? ?] ?] eqn:?
  | |- context [RegQueryValueEx_data ?o ?a ?b ?c] =>
      destruct (RegQueryValueEx_data o a b c) as [? ?] eqn:?
  | |- context [Z.eqb ?a ?b] => destruct (Z.eqb a b) eqn:?
  | |- context [Z.ltb ?a ?b] => destruct (Z.ltb a b) eqn:?
  | |- context [String.eqb ?a ?b] => destruct (String.eqb a b) eqn:?
  | |- context [if ?x then _ else _] => is_var x; destruct x
  end.

Ltac explore := run_c; repeat (break_cond; run_c; try discriminate).

(** ** Strings and segments *)

Lemma segments_nonempty (s : string) : segments s <> [].
Proof.
  induction s as [|a s IH]; simpl; [discriminate|].
  destruct (Ascii.eqb a backslash); [discriminate|].
  destruct (segments s); discriminate.
Qed.

Lemma join_path_segments (s : string) : join_path (segments s) = s.
Proof.
  induction s as [|a s IH]; simpl; [reflexivity|].
  destruct (Ascii.eqb a backslash) eqn:E.
  - apply Ascii.eqb_eq in E. subst a.
    pose proof (segments_nonempty s) as Hne.
    simpl. destruct (segments s) as [|x l]; [contradiction|].
    simpl in IH |- *. now rewrite IH.
  - pose proof (segments_nonempty s) as Hne.
    destruct (segments s) as [|x l]; [contradiction|].
    destruct l as [|y l]; simpl in IH |- *; now rewrite <- IH.
Qed.

Lemma strrchr_None_segments (s : string) :
  strrchr s backslash = None -> segments s = [s].
Proof.
  induction s as [|a s IH]; simpl; [reflexivity|].
  destruct (strrchr s backslash); [discriminate|].
  destruct (Ascii.eqb a backslash); [discriminate|].
  intros _. now rewrite IH.
Qed.

Lemma removelast_cons2 {A : Type} (x y : A) (l : list A) :
  removelast (x :: y :: l) = x :: removelast (y :: l).
Proof. reflexivity. Qed.

Lemma strrchr_Some_segments (s : string) (i : nat) :
  strrchr s backslash = Some i ->
  segments (terminate_at i s) = removelast (segments s)
  /\ (2 <= List.length (segments s))%nat.
Proof.
  revert i; induction s as [|a s IH]; simpl; intros i H; [discriminate|].
  destruct (strrchr s backslash) as [j|] eqn:Hs.
  - injection H as <-. destruct (IH j eq_refl) as [IH1 IH2]. simpl.
    destruct (Ascii.eqb a backslash).
    + destruct (segments s) as [|x l] eqn:Hx; [simpl in IH2; lia|].
      rewrite removelast_cons2, IH1. split; [reflexivity|simpl; lia].
    + destruct (segments s) as [|x [|y l]] eqn:Hx; try (simpl in IH2; lia).
      rewrite removelast_cons2, IH1. simpl. split; [reflexivity|lia].
  - destruct (Ascii.eqb a backslash); [|discriminate].
    injection H as <-. rewrite (strrchr_None_segments s Hs). simpl.
    split; [reflexivity|lia].
Qed.

Lemma strrchr_segments_length (s : string) :
  match strrchr s backslash with
  | None => List.length (segments s) = 1%nat
  | Some _ => (2 <= List.length (segments s))%nat
  end.
Proof.
  destruct (strrchr s backslash) eqn:H.
  - apply (strrchr_Some_segments s n H).
  - now rewrite (strrchr_None_segments s H).
Qed.

Lemma removelast_length {A : Type} (l : list A) :
  List.length (removelast l) = (List.length l - 1)%nat.
Proof.
  induction l as [|x [|y l] IH]; try reflexivity.
  rewrite removelast_cons2. simpl List.length in *. lia.
Qed.

(** ** GetApplicationHome *)

Example strip_two_segments_javac :
  strip_two_segments "c:\foo\bin\javac" = "c:\foo".
Proof. reflexivity. Qed.

Lemma GetApplicationHome_unfold (os : Win32) (bufsize : Z) (st : State) :
  GetApplicationHome os bufsize st =
    let p := GetModuleFileName os 0 bufsize in
    let st' := with_os_calls (fun t => (t ++ [EvGetModuleFileName 0 bufsize])%list) st in
    match strrchr p backslash with
    | None => None
    | Some i =>
        match strrchr (terminate_at i p) backslash with
        | None => Some ((false, ""), st')
        | Some cp => Some ((true, terminate_at cp (terminate_at i p)), st')
        end
    end.
Proof.
  unfold GetApplicationHome, sys_GetModuleFileName, bind, log, modify, ret, fault.
  simpl. destruct (strrchr _ backslash) as [i|]; [|reflexivity].
  destruct (strrchr (terminate_at i _) backslash); reflexivity.
Qed.

(** C5, as amended: when at least two segments precede the file name of
    the module path, GetApplicationHome succeeds with the path less its
    last two segments; when exactly one does, it fails and leaves the
    empty string.  The only system call is the module file name query. *)
Theorem GetApplicationHome_strips_two_segments
    (os : Win32) (bufsize : Z) (st : State) :
  let p := GetModuleFileName os 0 bufsize in
  (1 <= segments_before_file p)%nat ->
  GetApplicationHome os bufsize st =
    Some (if (2 <=? segments_before_file p)%nat
          then (true, strip_two_segments p)
          else (false, ""),
          with_os_calls (fun t => (t ++ [EvGetModuleFileName 0 bufsize])%list) st).
Proof.
  intros p Hp. rewrite GetApplicationHome_unfold. fold p. cbv zeta.
  unfold segments_before_file, strip_two_segments in *.
  pose proof (strrchr_segments_length p) as Hlen.
  destruct (strrchr p backslash) as [i|] eqn:Hi; [|lia].
  destruct (strrchr_Some_segments p i Hi) as [Hseg _].
  pose proof (strrchr_segments_length (terminate_at i p)) as Hlen2.
  rewrite Hseg, removelast_length in Hlen2.
  destruct (strrchr (terminate_at i p) backslash) as [cp|] eqn:Hcp.
  - destruct (strrchr_Some_segments _ cp Hcp) as [Hseg2 _].
    rewrite Hseg in Hseg2. rewrite <- Hseg2, join_path_segments.
    replace (2 <=? _)%nat with true; [reflexivity|].
    symmetry. apply Nat.leb_le. lia.
  - replace (2 <=? _)%nat with false; [reflexivity|].
    symmetry. apply Nat.leb_gt. lia.
Qed.

(** The amended C5 at [c:\foo\bin\javac.exe] (success, [c:\foo]) and at
    [c:\javac.exe] (failure). *)
Lemma GetApplicationHome_strips_two_segments_witness :
  (GetApplicationHome Machines.colocated 260 initial_state =
     Some ((true, "c:\foo"),
           with_os_calls (fun t => (t ++ [EvGetModuleFileName 0 260])%list)
                         initial_state))
  /\ (GetApplicationHome Machines.drive_root 260 initial_state =
        Some ((false, ""),
              with_os_calls (fun t => (t ++ [EvGetModuleFileName 0 260])%list)
                            initial_state)).
Proof.
  split.
  - exact (GetApplicationHome_strips_two_segments
             Machines.colocated 260 initial_state
             ltac:(vm_compute; lia)).
  - exact (GetApplicationHome_strips_two_segments
             Machines.drive_root 260 initial_state
             ltac:(vm_compute; lia)).
Defined.

(** C5 as stated fails where no segment precedes the file name: the
    first [strrchr] yields the null pointer, which the code writes
    through, so the function does not return failure. *)
Lemma GetApplicationHome_bare_name_faults :
  (segments_before_file (GetModuleFileName Machines.bare_name 0 260) < 2)%nat
  /\ GetApplicationHome Machines.bare_name 260 initial_state = None
  /\ ~ (exists buf st',
          GetApplicationHome Machines.bare_name 260 initial_state
          = Some ((false, buf), st')).
Proof.
  split; [vm_compute; lia|].
  split; [reflexivity|].
  intros (buf & st' & H). discriminate H.
Qed.

(** ** GetJVMPath *)

Lemma GetJVMPath_unfold (DEBUG : bool) (os : Win32)
    (jrepath jvmtype : string) (jvmpathsize : Z) (st : State) :
  let jvmpath := jrepath ++ "\bin\" ++ jvmtype ++ "\" ++ JVM_DLL DEBUG in
  GetJVMPath DEBUG os jrepath jvmtype jvmpathsize st =
    Some ((stat os jvmpath =? 0, jvmpath),
          with_os_calls (fun t => (t ++ [EvStat jvmpath])%list) st).
Proof.
  unfold GetJVMPath, sys_stat, bind, log, modify, ret. simpl.
  destruct (stat os _ =? 0); reflexivity.
Qed.

(** C2: in the release build GetJVMPath builds the one path
    [<jrepath>\bin\<jvmtype>\jvm.dll], answers true exactly when [stat]
    of that path returns zero, and makes no other system call: the
    state changes by that single logged [stat]. *)
Theorem GetJVMPath_single_candidate (os : Win32)
    (jrepath jvmtype : string) (jvmpathsize : Z) (st : State) :
  let jvmpath := jrepath ++ "\bin\" ++ jvmtype ++ "\jvm.dll" in
  exists ok : bool,
    GetJVMPath false os jrepath jvmtype jvmpathsize st =
      Some ((ok, jvmpath),
            with_os_calls (fun t => (t ++ [EvStat jvmpath])%list) st)
    /\ (ok = true <-> stat os jvmpath = 0).
Proof.
  intros jvmpath. exists (stat os jvmpath =? 0). split.
  - apply (GetJVMPath_unfold false).
  - apply Z.eqb_eq.
Qed.

(** The end-to-end example of the specification: home [C:\apps\foo],
    variant [client]. *)
Example GetJVMPath_apps_foo_client (files : list string) :
  let os := Sample.machine "C:\apps\foo\bin\java.exe" files "1.3"
              "C:\apps\foo" "C:\apps\foo\bin\client\jvm.dll" [] Machines.megahertz in
  GetJVMPath false os "C:\apps\foo" "client" 260 initial_state =
    Some ((Sample.mem "C:\apps\foo\bin\client\jvm.dll" files,
           "C:\apps\foo\bin\client\jvm.dll"),
          with_os_calls
            (fun t => (t ++ [EvStat "C:\apps\foo\bin\client\jvm.dll"])%list)
            initial_state).
Proof.
  intros os. rewrite GetJVMPath_unfold. simpl.
  destruct (Sample.mem _ files); reflexivity.
Qed.

(** ** LoadJavaVM *)

(** What [LoadJavaVM] does once the library is mapped. *)
Lemma LoadJavaVM_mapped (debug : bool) (os : Win32) (jvmpath : string)
    (ifn : InvocationFunctions) (st : State) :
  LoadLibrary os jvmpath <> 0 ->
  let h := LoadLibrary os jvmpath in
  let create := GetProcAddress os h "JNI_CreateJavaVM" in
  let args := GetProcAddress os h "JNI_GetDefaultJavaVMInitArgs" in
  let missing := (create =? 0) || (args =? 0) in
  let st1 := if debug
             then with_stdout (fun o => o ++ "JVM path is " ++ jvmpath ++ nl) st
             else st in
  let st2 := with_os_calls
               (fun t => (t ++ [EvLoadLibrary jvmpath;
                                EvGetProcAddress h "JNI_CreateJavaVM";
                                EvGetProcAddress h "JNI_GetDefaultJavaVMInitArgs"])%list)
               (with_loaded_libraries (cons h) st1) in
  LoadJavaVM debug os jvmpath ifn st =
    Some ((negb missing, mkInvocationFunctions create args),
          if missing
          then with_stderr
                 (fun e => e ++ "Error: can't find JNI interfaces in: "
                             ++ jvmpath ++ nl) st2
          else st2).
Proof.
  intros Hh h create args missing st1 st2.
  apply Z.eqb_neq in Hh.
  subst st2 st1 missing create args h.
  unfold LoadJavaVM. run_c. repeat (rewrite Hh; run_c).
  destruct (_ || _); destruct debug; run_c;
    rewrite <- ?app_assoc; reflexivity.
Qed.

(** C3: when the library maps but exports neither [JNI_CreateJavaVM] nor
    [JNI_GetDefaultJavaVMInitArgs], LoadJavaVM returns false and appends
    the missing-interfaces line, which names the path, to stderr. *)
Theorem LoadJavaVM_missing_symbols (debug : bool) (os : Win32)
    (jvmpath : string) (ifn : InvocationFunctions) (st : State) :
  LoadLibrary os jvmpath <> 0 ->
  GetProcAddress os (LoadLibrary os jvmpath) "JNI_CreateJavaVM" = 0 ->
  GetProcAddress os (LoadLibrary os jvmpath) "JNI_GetDefaultJavaVMInitArgs" = 0 ->
  exists tbl st',
    LoadJavaVM debug os jvmpath ifn st = Some ((false, tbl), st')
    /\ stderr st' =
         stderr st ++ "Error: can't find JNI interfaces in: " ++ jvmpath ++ nl.
Proof.
  intros Hh Hc Ha.
  rewrite (LoadJavaVM_mapped debug os jvmpath ifn st Hh). cbv zeta.
  rewrite Hc, Ha. simpl. eexists _, _. split; [reflexivity|].
  destruct debug; reflexivity.
Qed.

Lemma LoadJavaVM_missing_symbols_witness :
  exists tbl st',
    LoadJavaVM false Machines.no_symbols Machines.jvm
               (mkInvocationFunctions 0 0) initial_state
      = Some ((false, tbl), st')
    /\ stderr st' =
         stderr initial_state ++ "Error: can't find JNI interfaces in: "
           ++ Machines.jvm ++ nl.
Proof.
  apply (LoadJavaVM_missing_symbols false Machines.no_symbols Machines.jvm).
  - vm_compute. discriminate.
  - reflexivity.
  - reflexivity.
Defined.

(** C10: once the library is mapped, the caller's table holds the two
    lookup results whatever the outcome; the call fails exactly when one
    of them is null, the table then keeping the other, resolved or not,
    in place of what the caller had passed. *)
Theorem LoadJavaVM_writes_table_before_check (debug : bool) (os : Win32)
    (jvmpath : string) (ifn : InvocationFunctions) (st : State) :
  LoadLibrary os jvmpath <> 0 ->
  let h := LoadLibrary os jvmpath in
  exists (ok : bool) (st' : State),
    LoadJavaVM debug os jvmpath ifn st =
      Some ((ok, mkInvocationFunctions
                   (GetProcAddress os h "JNI_CreateJavaVM")
                   (GetProcAddress os h "JNI_GetDefaultJavaVMInitArgs")),
            st')
    /\ (ok = false <->
        GetProcAddress os h "JNI_CreateJavaVM" = 0
        \/ GetProcAddress os h "JNI_GetDefaultJavaVMInitArgs" = 0).
Proof.
  intros Hh h.
  rewrite (LoadJavaVM_mapped debug os jvmpath ifn st Hh). cbv zeta. fold h.
  eexists _, _. split; [reflexivity|].
  rewrite negb_false_iff, orb_true_iff, !Z.eqb_eq. reflexivity.
Qed.

(** C10 on a library that exports [JNI_CreateJavaVM] only: the call
    fails, and the table that held two nulls now holds one address. *)
Lemma LoadJavaVM_writes_table_before_check_witness :
  exists (ok : bool) (st' : State),
    LoadJavaVM false Machines.one_symbol Machines.jvm
               (mkInvocationFunctions 0 0) initial_state =
      Some ((ok, mkInvocationFunctions 4198416 0), st')
    /\ (ok = false <-> 4198416 = 0 \/ 0 = 0).
Proof.
  apply (LoadJavaVM_writes_table_before_check
           false Machines.one_symbol Machines.jvm (mkInvocationFunctions 0 0)
           initial_state).
  vm_compute. discriminate.
Defined.

(** ** The registry probe *)

Lemma release_head (h : Z) (l : list Z) : release h (h :: l) = l.
Proof. simpl. now rewrite Z.eqb_refl. Qed.

Lemma release_second (h k : Z) (l : list Z) :
  release k (release h (k :: h :: l)) = l.
Proof.
  simpl. destruct (k =? h) eqn:E.
  - apply Z.eqb_eq in E. subst. apply release_head.
  - simpl. rewrite Z.eqb_refl. simpl. rewrite Z.eqb_refl. reflexivity.
Qed.

Lemma count_events_app (p : Event -> bool) (t u : list Event) :
  count_events p (t ++ u) = (count_events p t + count_events p u)%nat.
Proof. unfold count_events. now rewrite filter_app, length_app. Qed.

Lemma count_events_snoc (p : Event -> bool) (t : list Event) (e : Event) :
  count_events p (t ++ [e]) = (count_events p t + if p e then 1 else 0)%nat.
Proof. rewrite count_events_app. unfold count_events. simpl. now destruct (p e). Qed.

(** The probe always returns, and it opens the key of the public JRE
    exactly once. *)
Lemma GetPublicJREHome_probes_once (MAXPATHLEN : Z) (debug : bool)
    (os : Win32) (buf : string) (bufsize : Z) (st : State) :
  exists ok buf' st',
    GetPublicJREHome MAXPATHLEN debug os buf bufsize st = Some ((ok, buf'), st')
    /\ count_events is_public_jre_probe (os_calls st')
       = S (count_events is_public_jre_probe (os_calls st)).
Proof.
  unfold GetPublicJREHome, GetStringFromRegistry. explore.
  all: eexists _, _, _; (split; [reflexivity|]); run_c.
  all: rewrite !count_events_snoc.
  all: try match goal with
           | H : String.eqb _ DOTRELEASE = true |- _ =>
               apply String.eqb_eq in H; subst
           end.
  all: cbn [is_public_jre_probe]; rewrite ?andb_false_r.
  all: change (String.eqb DOTRELEASE JRE_KEY) with false; rewrite ?andb_false_r.
  all: change ((HKEY_LOCAL_MACHINE =? HKEY_LOCAL_MACHINE)
               && String.eqb JRE_KEY JRE_KEY) with true; cbv iota.
  all: lia.
Qed.

(** C6: GetPublicJREHome always returns, and on every exit path the
    registry keys held open are those held before the call: each key
    the call opened has been closed again. *)
Theorem GetPublicJREHome_releases_keys (MAXPATHLEN : Z) (debug : bool)
    (os : Win32) (buf : string) (bufsize : Z) (st : State) :
  exists ok buf' st',
    GetPublicJREHome MAXPATHLEN debug os buf bufsize st = Some ((ok, buf'), st')
    /\ open_keys st' = open_keys st.
Proof.
  unfold GetPublicJREHome, GetStringFromRegistry. explore.
  all: eexists _, _, _; (split; [reflexivity|]); run_c.
  all: auto using release_head, release_second.
Qed.

(** C4: when the JRE key opens and its CurrentVersion reads as a string
    other than "1.3", GetPublicJREHome returns false: it writes to stderr
    the line that quotes the value read and the required "1.3", closes
    the key, and never opens the child key. *)
Theorem GetPublicJREHome_version_mismatch (MAXPATHLEN : Z) (debug : bool)
    (os : Win32) (buf : string) (bufsize : Z) (st : State)
    (key : HKEY) (size : Z) (version : string) :
  RegOpenKeyEx os HKEY_LOCAL_MACHINE JRE_KEY = (0, key) ->
  RegQueryValueEx_info os key "CurrentVersion" = (0, REG_SZ, size) ->
  size < uint32 MAXPATHLEN ->
  RegQueryValueEx_data os key "CurrentVersion" size = (0, version) ->
  version <> "1.3" ->
  exists st',
    GetPublicJREHome MAXPATHLEN debug os buf bufsize st = Some ((false, buf), st')
    /\ stderr st' =
         stderr st ++ "Registry key '" ++ JRE_KEY ++ "\CurrentVersion'" ++ nl
           ++ "has value '" ++ version ++ "', but '1.3' is required." ++ nl
    /\ os_calls st' =
         (os_calls st ++ [EvRegOpenKeyEx HKEY_LOCAL_MACHINE JRE_KEY;
                          EvRegQueryValueEx key "CurrentVersion" false;
                          EvRegQueryValueEx key "CurrentVersion" true;
                          EvRegCloseKey key])%list
    /\ open_keys st' = open_keys st.
Proof.
  intros Hopen Hinfo Hsize Hdata Hver.
  apply Z.ltb_lt in Hsize. apply String.eqb_neq in Hver.
  change "1.3" with DOTRELEASE in Hver.
  unfold GetPublicJREHome, GetStringFromRegistry. run_c.
  repeat (first [ rewrite Hopen | rewrite Hinfo | rewrite Hdata
                | rewrite Z.eqb_refl | rewrite Hsize | rewrite Hver ];
          run_c).
  eexists. split; [reflexivity|]. run_c.
  split; [reflexivity|]. split.
  - rewrite <- !app_assoc. reflexivity.
  - apply release_head.
Qed.

(** C4 where the registry names version 1.4. *)
Lemma GetPublicJREHome_version_mismatch_witness :
  exists st',
    GetPublicJREHome 260 false Machines.newer_release "" 260 initial_state
      = Some ((false, ""), st')
    /\ stderr st' =
         stderr initial_state ++ "Registry key '" ++ JRE_KEY
           ++ "\CurrentVersion'" ++ nl
           ++ "has value '" ++ "1.4" ++ "', but '1.3' is required." ++ nl
    /\ os_calls st' =
         (os_calls initial_state
            ++ [EvRegOpenKeyEx HKEY_LOCAL_MACHINE JRE_KEY;
                EvRegQueryValueEx Sample.root_key "CurrentVersion" false;
                EvRegQueryValueEx Sample.root_key "CurrentVersion" true;
                EvRegCloseKey Sample.root_key])%list
    /\ open_keys st' = open_keys initial_state.
Proof.
  apply (GetPublicJREHome_version_mismatch
           260 false Machines.newer_release "" 260 initial_state
           Sample.root_key 4 "1.4").
  - reflexivity.
  - reflexivity.
  - vm_compute. reflexivity.
  - reflexivity.
  - discriminate.
Defined.

(** ** GetJREPath *)

Lemma with_os_calls_twice (e1 e2 : Event) (st : State) :
  with_os_calls (fun t => (t ++ [e2])%list)
                (with_os_calls (fun t => (t ++ [e1])%list) st)
  = with_os_calls (fun t => (t ++ [e1; e2])%list) st.
Proof. unfold with_os_calls. simpl. now rewrite <- app_assoc. Qed.

(** C1, as amended: with the application home resolved and the paths
    it formats fitting the array [javadll], GetJREPath (release build)
    first asks for [<apphome>\bin\java.dll] and, if it is there, answers
    the application home after that single [stat]; otherwise it asks for
    [<apphome>\jre\bin\java.dll] and, if that is there, answers the home
    with [\jre] appended, again without touching the registry; only when
    both are missing does it run the registry probe, once, and its own
    result is then the probe's, flag and home alike. *)
Theorem GetJREPath_priority_order (MAXPATHLEN : Z) (debug : bool)
    (os : Win32) (pathsize : Z) (st st0 : State) (apphome : string) :
  GetApplicationHome os pathsize st = Some ((true, apphome), st0) ->
  let dll1 := apphome ++ "\bin\java.dll" in
  let dll2 := apphome ++ "\jre\bin\java.dll" in
  fits MAXPATHLEN dll1 = true ->
  (stat os dll1 <> 0 -> fits MAXPATHLEN dll2 = true) ->
  exists (ok : bool) (home : string) (st' : State),
    GetJREPath false MAXPATHLEN debug os pathsize st = Some ((ok, home), st')
    /\ if stat os dll1 =? 0 then
         ok = true /\ home = apphome
         /\ os_calls st' = (os_calls st0 ++ [EvStat dll1])%list
       else if stat os dll2 =? 0 then
         ok = true /\ home = apphome ++ "\jre"
         /\ os_calls st' = (os_calls st0 ++ [EvStat dll1; EvStat dll2])%list
       else
         exists st3,
           GetPublicJREHome MAXPATHLEN debug os apphome pathsize
             (with_os_calls (fun t => (t ++ [EvStat dll1; EvStat dll2])%list) st0)
           = Some ((ok, home), st3)
           /\ os_calls st' = os_calls st3
           /\ count_events is_public_jre_probe (os_calls st')
              = S (count_events is_public_jre_probe (os_calls st0)).
Proof.
  intros Happ dll1 dll2 Hfit1 Hfit2.
  unfold GetJREPath. run_c. rewrite Happ. run_c. cbn [append].
  fold dll1 dll2. rewrite Hfit1. run_c.
  destruct (stat os dll1 =? 0) eqn:E1; run_c.
  { destruct debug; run_c; eexists _, _, _; (split; [reflexivity|]);
      run_c; auto. }
  apply Z.eqb_neq in E1. rewrite (Hfit2 E1). run_c.
  destruct (stat os dll2 =? 0); run_c.
  { destruct debug; run_c; eexists _, _, _; (split; [reflexivity|]);
      run_c; rewrite <- app_assoc; auto. }
  match goal with
  | |- context [GetPublicJREHome _ _ _ _ _ ?s] =>
      change s with
        (with_os_calls (fun t => (t ++ [EvStat dll2])%list)
           (with_os_calls (fun t => (t ++ [EvStat dll1])%list) st0))
  end.
  rewrite with_os_calls_twice.
  destruct (GetPublicJREHome_probes_once MAXPATHLEN debug os apphome pathsize
              (with_os_calls (fun t => (t ++ [EvStat dll1; EvStat dll2])%list) st0))
    as (ok & home & st3 & Hprobe & Hcount).
  rewrite Hprobe. run_c.
  assert (Hcount' : count_events is_public_jre_probe (os_calls st3)
                    = S (count_events is_public_jre_probe (os_calls st0))).
  { rewrite Hcount. unfold with_os_calls. cbn [os_calls].
    rewrite count_events_app. unfold count_events at 2. simpl. lia. }
  destruct ok, debug; run_c;
    eexists _, _, _; (split; [reflexivity|]); exists st3; run_c; auto.
Qed.

(** The amended C1 on three machines: a co-located JRE next to a private
    one (the co-located one wins), a private JRE only, and neither (the
    registry is probed once and its JavaHome is returned as it is). *)
Lemma GetJREPath_priority_order_witness :
  (exists ok home st',
      GetJREPath false 260 false Machines.colocated 260 initial_state
        = Some ((ok, home), st')
      /\ (ok = true /\ home = "c:\foo"
          /\ os_calls st' = [EvGetModuleFileName 0 260;
                             EvStat "c:\foo\bin\java.dll"]))
  /\ (exists ok home st',
         GetJREPath false 260 false Machines.private_jre 260 initial_state
           = Some ((ok, home), st')
         /\ (ok = true /\ home = "c:\foo\jre"
             /\ os_calls st' = [EvGetModuleFileName 0 260;
                                EvStat "c:\foo\bin\java.dll";
                                EvStat "c:\foo\jre\bin\java.dll"]))
  /\ (exists ok home st',
         GetJREPath false 260 false Machines.public_jre 260 initial_state
           = Some ((ok, home), st')
         /\ exists st3,
              GetPublicJREHome 260 false Machines.public_jre "c:\foo" 260
                (with_os_calls
                   (fun t => (t ++ [EvStat "c:\foo\bin\java.dll";
                                    EvStat "c:\foo\jre\bin\java.dll"])%list)
                   (with_os_calls
                      (fun t => (t ++ [EvGetModuleFileName 0 260])%list)
                      initial_state))
              = Some ((ok, home), st3)
              /\ os_calls st' = os_calls st3
              /\ count_events is_public_jre_probe (os_calls st') = 1%nat).
Proof.
  split; [|split].
  - exact (GetJREPath_priority_order 260 false Machines.colocated 260
             initial_state _ "c:\foo" eq_refl eq_refl (fun _ => eq_refl)).
  - exact (GetJREPath_priority_order 260 false Machines.private_jre 260
             initial_state _ "c:\foo" eq_refl eq_refl (fun _ => eq_refl)).
  - exact (GetJREPath_priority_order 260 false Machines.public_jre 260
             initial_state _ "c:\foo" eq_refl eq_refl (fun _ => eq_refl)).
Defined.

(** C1 as stated fails for a long application home.  The launcher's
    module name has 259 characters, so it fits the 260 bytes asked of
    GetModuleFileName, and GetApplicationHome resolves a home of 255
    characters; [<home>\bin\java.dll] then needs 269 bytes of the 260 of
    [javadll], and the call ends in the overrun: no file is looked for
    and no result is returned. *)
Lemma GetJREPath_long_home_overruns :
  String.length (GetModuleFileName long_launcher 0 260) = 259%nat
  /\ (exists st0,
        GetApplicationHome long_launcher 260 initial_state
          = Some ((true, long_home), st0))
  /\ fits 260 (long_home ++ "\bin\java.dll") = false
  /\ GetJREPath false 260 false long_launcher 260 initial_state = None.
Proof.
  split; [reflexivity|].
  split.
  - exists (with_os_calls (fun t => (t ++ [EvGetModuleFileName 0 260])%list)
                          initial_state).
    vm_compute. reflexivity.
  - split; vm_compute; reflexivity.
Qed.

Example GetJREPath_public_jre :
  exists st',
    GetJREPath false 260 false Machines.public_jre 260 initial_state
      = Some ((true, Machines.javahome), st')
    /\ open_keys st' = [].
Proof. eexists. split; reflexivity. Qed.

(** ** The interval timer *)

Lemma wrap64_small (z : Z) : - 2 ^ 63 <= z < 2 ^ 63 -> wrap64 z = z.
Proof. intros H. unfold wrap64. rewrite Z.mod_small; lia. Qed.

Lemma quot_in_range (n f : Z) :
  - 2 ^ 63 < n < 2 ^ 63 -> f <> 0 -> - 2 ^ 63 <= Z.quot n f < 2 ^ 63.
Proof.
  intros Hn Hf.
  assert (Habs : Z.abs (Z.quot n f) <= Z.abs n).
  { rewrite <- (Z.quot_abs n f Hf).
    destruct (Z.eq_dec (Z.abs n) 0) as [E|E].
    - rewrite E. rewrite Z.quot_0_l; lia.
    - destruct (Z.eq_dec (Z.abs f) 1) as [E1|E1].
      + rewrite E1, Z.quot_1_r. lia.
      + apply Z.lt_le_incl, Z.quot_lt; lia. }
  lia.
Qed.

(** With the counter unavailable or not yet queried, the conversion
    answers zero and leaves the state as it is. *)
Lemma Counter2Micros_unavailable (counts : Z) (st : State) :
  counterAvailable st = 0 \/ counterInitialized st = false ->
  Counter2Micros counts st = Some (0, st).
Proof.
  intros H. unfold Counter2Micros. run_c.
  destruct H as [-> | ->]; [reflexivity|].
  now rewrite orb_true_r.
Qed.

(** With the counter available, the conversion computes in 64 bits and
    faults on a zero frequency and on the quotient of the least [jlong]
    by minus one; the state is left as it is. *)
Lemma Counter2Micros_available (counts : Z) (st : State) :
  counterAvailable st <> 0 -> counterInitialized st = true ->
  Counter2Micros counts st =
    if counterFrequency st =? 0 then None
    else if (wrap64 (wrap64 (counts * 1000) * 1000) =? - 2 ^ 63)
            && (counterFrequency st =? -1) then None
    else Some (wrap64 (Z.quot (wrap64 (wrap64 (counts * 1000) * 1000))
                              (counterFrequency st)), st).
Proof.
  intros Ha Hi. apply Z.eqb_neq in Ha.
  unfold Counter2Micros. run_c. rewrite Ha, Hi. run_c.
  destruct (counterFrequency st =? 0); [reflexivity|].
  destruct (_ && _); reflexivity.
Qed.

(** C7, as amended: with the counter available and its frequency not
    zero, Counter2Micros returns the quotient, truncated toward zero, of
    [counts * 1000000] by the frequency whenever that product fits the
    64-bit [jlong]; in particular it returns 1000000 for [counts] equal
    to such a frequency. *)
Theorem Counter2Micros_exact (counts : Z) (st : State) :
  counterAvailable st <> 0 ->
  counterInitialized st = true ->
  counterFrequency st <> 0 ->
  - 2 ^ 63 <= counts * 1000000 < 2 ^ 63 ->
  Counter2Micros counts st
    = Some (Z.quot (counts * 1000000) (counterFrequency st), st)
  /\ (counts = counterFrequency st ->
      Counter2Micros counts st = Some (1000000, st)).
Proof.
  intros Ha Hi Hf Hr.
  assert (Hmain : Counter2Micros counts st
                  = Some (Z.quot (counts * 1000000) (counterFrequency st), st)).
  { rewrite (Counter2Micros_available counts st Ha Hi).
    apply Z.eqb_neq in Hf. rewrite Hf. apply Z.eqb_neq in Hf.
    rewrite (wrap64_small (counts * 1000)) by lia.
    rewrite (wrap64_small (counts * 1000 * 1000)) by lia.
    replace (counts * 1000 * 1000) with (counts * 1000000) by lia.
    replace (counts * 1000000 =? - 2 ^ 63) with false
      by (symmetry; apply Z.eqb_neq; lia).
    cbn [andb].
    rewrite wrap64_small; [reflexivity|].
    apply quot_in_range; [lia|assumption]. }
  split; [exact Hmain|].
  intros ->. rewrite Hmain. f_equal. f_equal.
  rewrite Z.mul_comm. apply Z.quot_mul. assumption.
Qed.

(** The amended C7 after one second of a one megahertz counter. *)
Lemma Counter2Micros_exact_witness :
  let st := with_calibration 1 true 1000000 initial_state in
  Counter2Micros 1000000 st = Some (Z.quot (1000000 * 1000000) 1000000, st)
  /\ (1000000 = counterFrequency st ->
      Counter2Micros 1000000 st = Some (1000000, st)).
Proof.
  apply (Counter2Micros_exact 1000000
           (with_calibration 1 true 1000000 initial_state)).
  - simpl. lia.
  - reflexivity.
  - simpl. lia.
  - lia.
Defined.

(** C7 as stated fails for a frequency whose product with one million
    leaves the 64-bit range: with ten terahertz the conversion of one
    second of ticks is negative. *)
Lemma Counter2Micros_one_second_overflows :
  exists t st,
    CounterGet Machines.ten_terahertz initial_state = Some (t, st)
    /\ counterAvailable st <> 0
    /\ counterInitialized st = true
    /\ - 2 ^ 63 <= counterFrequency st < 2 ^ 63
    /\ Counter2Micros (counterFrequency st) st = Some (-844674, st)
    /\ Counter2Micros (counterFrequency st) st <> Some (1000000, st).
Proof.
  eexists _, _. split; [reflexivity|].
  split; [vm_compute; discriminate|].
  split; [reflexivity|].
  split; [simpl; lia|].
  split; [reflexivity|].
  vm_compute. discriminate.
Qed.

(** The first [CounterGet] of a process: one frequency query, whose
    answer is cached; the counter is read only if it is available. *)
Lemma CounterGet_first (os : Win32) (st : State) :
  counterInitialized st = false ->
  let answer := QueryPerformanceFrequency os
                  (count_events is_frequency_query (os_calls st)) in
  let st1 := with_calibration (jboolean_of_BOOL (fst answer)) true (snd answer)
               (with_os_calls
                  (fun t => (t ++ [EvQueryPerformanceFrequency])%list) st) in
  CounterGet os st =
    if jboolean_of_BOOL (fst answer) =? 0 then Some (0, st1)
    else Some (QueryPerformanceCounter os
                 (count_events is_counter_query (os_calls st1)),
               with_os_calls
                 (fun t => (t ++ [EvQueryPerformanceCounter])%list) st1).
Proof.
  intros Hi answer st1. subst st1 answer.
  unfold CounterGet. run_c.
  replace (negb (counterInitialized st)) with true by now rewrite Hi.
  run_c.
  destruct (QueryPerformanceFrequency os _) as [r f]. run_c.
  destruct (jboolean_of_BOOL r =? 0); reflexivity.
Qed.

(** Any later [CounterGet]: no frequency query, the cache is only read. *)
Lemma CounterGet_later (os : Win32) (st : State) :
  counterInitialized st = true ->
  CounterGet os st =
    if counterAvailable st =? 0 then Some (0, st)
    else Some (QueryPerformanceCounter os
                 (count_events is_counter_query (os_calls st)),
               with_os_calls
                 (fun t => (t ++ [EvQueryPerformanceCounter])%list) st).
Proof.
  intros Hi. unfold CounterGet. run_c.
  replace (negb (counterInitialized st)) with false by now rewrite Hi.
  run_c.
  destruct (counterAvailable st =? 0); reflexivity.
Qed.

(** [Counter2Micros] never writes the state. *)
Lemma Counter2Micros_pure (counts r : Z) (st st' : State) :
  Counter2Micros counts st = Some (r, st') -> st' = st.
Proof.
  unfold Counter2Micros. run_c.
  destruct (_ || _); [intros H; now inversion H|].
  destruct (counterFrequency st =? 0); [discriminate|].
  destruct (_ && _); [discriminate|].
  intros H; now inversion H.
Qed.

(** Once initialised, the calibration survives every call, and no call
    queries the frequency again. *)
Lemma timer_call_initialized (os : Win32) (c : TimerCall) (r : Z)
    (st st' : State) :
  counterInitialized st = true ->
  timer_call os c st = Some (r, st') ->
  calibration st' = calibration st
  /\ count_events is_frequency_query (os_calls st')
     = count_events is_frequency_query (os_calls st).
Proof.
  intros Hi. destruct c as [|counts]; simpl.
  - rewrite (CounterGet_later os st Hi).
    destruct (counterAvailable st =? 0); intros H; inversion H; subst.
    + split; reflexivity.
    + split; [reflexivity|]. run_c. rewrite count_events_snoc. simpl. lia.
  - intros H. apply Counter2Micros_pure in H. subst. split; reflexivity.
Qed.

Lemma timer_calls_initialized (os : Win32) (cs : list TimerCall) :
  forall (rs : list Z) (st st' : State),
    counterInitialized st = true ->
    timer_calls os cs st = Some (rs, st') ->
    calibration st' = calibration st
    /\ count_events is_frequency_query (os_calls st')
       = count_events is_frequency_query (os_calls st).
Proof.
  induction cs as [|c cs IH]; intros rs st st' Hi; simpl.
  - unfold ret. intros H; inversion H; subst. split; reflexivity.
  - unfold bind at 1.
    destruct (timer_call os c st) as [[r st1]|] eqn:Hc; [|discriminate].
    destruct (timer_call_initialized os c r st st1 Hi Hc) as [Hcal Hcnt].
    unfold bind at 1.
    destruct (timer_calls os cs st1) as [[rs1 st2]|] eqn:Hcs; [|discriminate].
    unfold ret. intros H; inversion H; subst.
    assert (Hi1 : counterInitialized st1 = true).
    { unfold calibration in Hcal. congruence. }
    destruct (IH rs1 st1 st' Hi1 Hcs) as [Hcal' Hcnt'].
    split; congruence.
Qed.

(** With the counter unavailable, every call answers zero and leaves the
    state as it is. *)
Lemma timer_calls_unavailable (os : Win32) (cs : list TimerCall) (st : State) :
  counterAvailable st = 0 ->
  counterInitialized st = true ->
  timer_calls os cs st = Some (repeat 0 (List.length cs), st).
Proof.
  intros Ha Hi. induction cs as [|c cs IH]; [reflexivity|].
  simpl. unfold bind at 1.
  replace (timer_call os c st) with (Some (0, st)).
  - unfold bind at 1. rewrite IH. reflexivity.
  - destruct c as [|counts]; simpl.
    + rewrite (CounterGet_later os st Hi), Ha. reflexivity.
    + now rewrite Counter2Micros_unavailable by (left; exact Ha).
Qed.

(** Before the first [CounterGet], conversions answer zero and do not
    initialise anything. *)
Lemma timer_calls_before_first (os : Win32) (ks : list Z)
    (cs : list TimerCall) (st : State) :
  counterInitialized st = false ->
  timer_calls os (map CallCounter2Micros ks ++ cs) st =
    match timer_calls os cs st with
    | Some (rs, st') => Some ((repeat 0 (List.length ks) ++ rs)%list, st')
    | None => None
    end.
Proof.
  intros Hi. induction ks as [|k ks IH]; simpl.
  - destruct (timer_calls os cs st) as [[rs st']|]; reflexivity.
  - unfold bind at 1.
    rewrite Counter2Micros_unavailable by (right; exact Hi).
    unfold bind at 1. rewrite IH.
    destruct (timer_calls os cs st) as [[rs st']|]; reflexivity.
Qed.

(** C8: if the frequency query of the first CounterGet fails, that call
    returns zero, and so does every later CounterGet and Counter2Micros
    call of any sequence, whatever its argument; the frequency is never
    queried again, even where a second query would succeed. *)
Theorem timer_unavailable_forever (os : Win32) (st : State)
    (cs : list TimerCall) :
  counterInitialized st = false ->
  fst (QueryPerformanceFrequency os
         (count_events is_frequency_query (os_calls st))) = 0 ->
  exists st1,
    CounterGet os st = Some (0, st1)
    /\ exists rs st2,
         timer_calls os cs st1 = Some (rs, st2)
         /\ List.length rs = List.length cs
         /\ Forall (fun r => r = 0) rs
         /\ count_events is_frequency_query (os_calls st2)
            = S (count_events is_frequency_query (os_calls st)).
Proof.
  intros Hi Hfail.
  rewrite (CounterGet_first os st Hi). cbv zeta. rewrite Hfail.
  change (jboolean_of_BOOL 0 =? 0) with true. cbv iota.
  eexists. split; [reflexivity|].
  rewrite timer_calls_unavailable by reflexivity.
  eexists _, _. split; [reflexivity|].
  split; [apply repeat_length|].
  split.
  - apply Forall_forall. intros r Hr. now apply repeat_spec in Hr.
  - run_c. rewrite count_events_snoc. simpl. lia.
Qed.

(** C8 on a machine whose frequency query fails only the first time. *)
Lemma timer_unavailable_forever_witness :
  exists st1,
    CounterGet Machines.no_counter_at_first initial_state = Some (0, st1)
    /\ exists rs st2,
         timer_calls Machines.no_counter_at_first
           [CallCounterGet; CallCounter2Micros 5000000; CallCounterGet] st1
           = Some (rs, st2)
         /\ List.length rs = 3%nat
         /\ Forall (fun r => r = 0) rs
         /\ count_events is_frequency_query (os_calls st2) = 1%nat.
Proof.
  apply (timer_unavailable_forever Machines.no_counter_at_first initial_state
           [CallCounterGet; CallCounter2Micros 5000000; CallCounterGet]).
  - reflexivity.
  - reflexivity.
Defined.

(** C9: in any sequence of calls that starts with the statics not yet
    initialised, the first CounterGet (conversions may precede it)
    queries the frequency and caches the answer; whatever calls follow,
    the cache still holds that answer at the end and the frequency has
    been queried exactly once. *)
Theorem calibration_set_by_first_CounterGet (os : Win32) (st st' : State)
    (ks : list Z) (cs : list TimerCall) (rs : list Z) :
  counterInitialized st = false ->
  timer_calls os (map CallCounter2Micros ks ++ CallCounterGet :: cs) st
    = Some (rs, st') ->
  let answer := QueryPerformanceFrequency os
                  (count_events is_frequency_query (os_calls st)) in
  calibration st' = (jboolean_of_BOOL (fst answer), true, snd answer)
  /\ count_events is_frequency_query (os_calls st')
     = S (count_events is_frequency_query (os_calls st)).
Proof.
  intros Hi Hrun answer.
  rewrite (timer_calls_before_first os ks _ st Hi) in Hrun.
  destruct (timer_calls os (CallCounterGet :: cs) st) as [[rs1 st1]|] eqn:Hcs;
    [|discriminate].
  inversion Hrun; subst; clear Hrun.
  simpl in Hcs. unfold bind at 1 in Hcs.
  rewrite (CounterGet_first os st Hi) in Hcs. cbv zeta in Hcs. fold answer in Hcs.
  assert (Hstep : forall r0 s0,
             calibration s0 = (jboolean_of_BOOL (fst answer), true, snd answer) ->
             count_events is_frequency_query (os_calls s0)
               = S (count_events is_frequency_query (os_calls st)) ->
             bind (timer_calls os cs) (fun rs0 => ret (r0 :: rs0)) s0
               = Some (rs1, st') ->
             calibration st' = (jboolean_of_BOOL (fst answer), true, snd answer)
             /\ count_events is_frequency_query (os_calls st')
                = S (count_events is_frequency_query (os_calls st))).
  { intros r0 s0 Hcal Hcnt Hb. unfold bind in Hb.
    destruct (timer_calls os cs s0) as [[rs2 s2]|] eqn:Hcs2; [|discriminate].
    unfold ret in Hb. inversion Hb; subst.
    assert (Hi0 : counterInitialized s0 = true).
    { unfold calibration in Hcal. congruence. }
    destruct (timer_calls_initialized os cs rs2 s0 st' Hi0 Hcs2) as [H1 H2].
    split; congruence. }
  destruct (jboolean_of_BOOL (fst answer) =? 0).
  - eapply Hstep; [| |exact Hcs].
    + reflexivity.
    + run_c. rewrite count_events_snoc. simpl. lia.
  - eapply Hstep; [| |exact Hcs].
    + reflexivity.
    + run_c. rewrite !count_events_snoc. simpl. lia.
Qed.

(** C9 on a one megahertz counter: a conversion, the first CounterGet,
    then a conversion and two more CounterGet calls. *)
Lemma calibration_set_by_first_CounterGet_witness :
  exists rs st',
    timer_calls Machines.colocated
      [CallCounter2Micros 5; CallCounterGet; CallCounter2Micros 1000000;
       CallCounterGet; CallCounterGet] initial_state
      = Some (rs, st')
    /\ rs = [0; 1000; 1000000; 2000; 3000]
    /\ calibration st' = (1, true, 1000000)
    /\ count_events is_frequency_query (os_calls st') = 1%nat.
Proof.
  eexists _, _. split; [reflexivity|]. split; [reflexivity|].
  exact (calibration_set_by_first_CounterGet Machines.colocated initial_state _
           [5] [CallCounter2Micros 1000000; CallCounterGet; CallCounterGet]
           _ eq_refl eq_refl).
Defined.

(** * Further properties of the launcher glue *)

(** ** Paths written as directory, separator, file name *)

Lemma string_app_assoc (a b c : string) : (a ++ b) ++ c = a ++ (b ++ c).
Proof. induction a as [|x a IH]; simpl; [reflexivity|now rewrite IH]. Qed.

Lemma strrchr_last_separator (dir file : string) :
  strrchr file backslash = None ->
  strrchr (dir ++ String backslash file) backslash = Some (String.length dir).
Proof.
  intros Hfile. induction dir as [|a dir IH]; simpl.
  - rewrite Hfile. reflexivity.
  - rewrite IH. reflexivity.
Qed.

Lemma terminate_at_prefix (dir rest : string) :
  terminate_at (String.length dir) (dir ++ rest) = dir.
Proof. induction dir as [|a dir IH]; simpl; [reflexivity|now rewrite IH]. Qed.

(** X1 (GetApplicationHome): for a launcher at [<home>\<bin>\<exe>],
    where neither [<bin>] nor [<exe>] holds a backslash, the function
    succeeds and leaves exactly [<home>] in the buffer. *)
Theorem GetApplicationHome_home_of_launcher (os : Win32) (bufsize : Z)
    (st : State) (home bin exe : string) :
  strrchr bin backslash = None ->
  strrchr exe backslash = None ->
  GetModuleFileName os 0 bufsize = home ++ "\" ++ bin ++ "\" ++ exe ->
  GetApplicationHome os bufsize st =
    Some ((true, home),
          with_os_calls (fun t => (t ++ [EvGetModuleFileName 0 bufsize])%list) st).
Proof.
  intros Hbin Hexe Hp. rewrite GetApplicationHome_unfold. cbv zeta. rewrite Hp.
  change (home ++ "\" ++ bin ++ "\" ++ exe)
    with (home ++ (String backslash bin ++ String backslash exe)).
  rewrite <- string_app_assoc.
  rewrite (strrchr_last_separator _ exe Hexe), terminate_at_prefix.
  rewrite (strrchr_last_separator home bin Hbin), terminate_at_prefix.
  reflexivity.
Qed.

Lemma GetApplicationHome_home_of_launcher_witness :
  GetApplicationHome Machines.colocated 260 initial_state =
    Some ((true, "c:\foo"),
          with_os_calls (fun t => (t ++ [EvGetModuleFileName 0 260])%list)
                        initial_state).
Proof.
  apply (GetApplicationHome_home_of_launcher Machines.colocated 260
           initial_state "c:\foo" "bin" "javac.exe"); reflexivity.
Defined.

(** X2 (GetXUsagePath): when the module file name of the JVM library is
    [<dir>\<file>], the buffer receives [<dir>\Xusage.txt]: the usage
    file is looked for beside the library.  The two system calls are the
    module handle lookup and the file name query on that handle. *)
Theorem GetXUsagePath_beside_library (DEBUG : bool) (os : Win32)
    (bufsize : Z) (st : State) (dir file : string) :
  strrchr file backslash = None ->
  GetModuleFileName os (GetModuleHandle os (JVM_DLL DEBUG)) bufsize
    = dir ++ "\" ++ file ->
  GetXUsagePath DEBUG os bufsize st =
    Some (dir ++ "\Xusage.txt",
          with_os_calls
            (fun t => (t ++ [EvGetModuleHandle (JVM_DLL DEBUG);
                             EvGetModuleFileName
                               (GetModuleHandle os (JVM_DLL DEBUG)) bufsize])%list)
            st).
Proof.
  intros Hfile Hp. unfold GetXUsagePath. run_c.
  unfold JVM_DLL in Hp |- *. rewrite Hp.
  change (dir ++ "\" ++ file) with (dir ++ String backslash file).
  rewrite (strrchr_last_separator dir file Hfile), terminate_at_prefix.
  rewrite <- app_assoc. reflexivity.
Qed.

Lemma GetXUsagePath_beside_library_witness :
  GetXUsagePath false Machines.colocated 260 initial_state =
    Some ("c:\foo\bin\Xusage.txt",
          with_os_calls
            (fun t => (t ++ [EvGetModuleHandle "jvm.dll";
                             EvGetModuleFileName Sample.jvm_handle 260])%list)
            initial_state).
Proof.
  apply (GetXUsagePath_beside_library false Machines.colocated 260
           initial_state "c:\foo\bin" "javac.exe"); reflexivity.
Defined.

(** ** More on LoadJavaVM *)

Lemma LoadJavaVM_unmapped (debug : bool) (os : Win32) (jvmpath : string)
    (ifn : InvocationFunctions) (st : State) :
  LoadLibrary os jvmpath = 0 ->
  let st1 := if debug
             then with_stdout (fun o => o ++ "JVM path is " ++ jvmpath ++ nl) st
             else st in
  LoadJavaVM debug os jvmpath ifn st =
    Some ((false, ifn),
          with_stderr (fun e => e ++ "Error loading: " ++ jvmpath ++ nl)
            (with_os_calls (fun t => (t ++ [EvLoadLibrary jvmpath])%list) st1)).
Proof.
  intros Hh st1. subst st1. unfold LoadJavaVM. run_c.
  repeat (rewrite Hh; run_c). rewrite Z.eqb_refl.
  destruct debug; run_c; reflexivity.
Qed.

(** X3 (LoadJavaVM): when the library cannot be mapped, the call fails,
    reports the path on stderr, asks for no symbol and leaves the
    caller's table exactly as it was passed. *)
Theorem LoadJavaVM_cannot_open (debug : bool) (os : Win32) (jvmpath : string)
    (ifn : InvocationFunctions) (st : State) :
  LoadLibrary os jvmpath = 0 ->
  exists st',
    LoadJavaVM debug os jvmpath ifn st = Some ((false, ifn), st')
    /\ stderr st' = stderr st ++ "Error loading: " ++ jvmpath ++ nl
    /\ os_calls st' = (os_calls st ++ [EvLoadLibrary jvmpath])%list
    /\ loaded_libraries st' = loaded_libraries st.
Proof.
  intros Hh. rewrite (LoadJavaVM_unmapped debug os jvmpath ifn st Hh).
  eexists. split; [reflexivity|]. destruct debug; repeat split.
Qed.

Lemma LoadJavaVM_cannot_open_witness :
  exists st',
    LoadJavaVM false Machines.colocated "c:\nowhere\jvm.dll"
               (mkInvocationFunctions 7 9) initial_state
      = Some ((false, mkInvocationFunctions 7 9), st')
    /\ stderr st' = stderr initial_state ++ "Error loading: "
                      ++ "c:\nowhere\jvm.dll" ++ nl
    /\ os_calls st' = (os_calls initial_state
                         ++ [EvLoadLibrary "c:\nowhere\jvm.dll"])%list
    /\ loaded_libraries st' = loaded_libraries initial_state.
Proof.
  apply (LoadJavaVM_cannot_open false Machines.colocated "c:\nowhere\jvm.dll").
  reflexivity.
Defined.

(** X4 (LoadJavaVM): the call always returns; it succeeds exactly when
    the library maps and both entry points resolve, and then it has
    written nothing to stderr and the table holds the two addresses. *)
Theorem LoadJavaVM_success_iff (debug : bool) (os : Win32) (jvmpath : string)
    (ifn : InvocationFunctions) (st : State) :
  let h := LoadLibrary os jvmpath in
  let create := GetProcAddress os h "JNI_CreateJavaVM" in
  let args := GetProcAddress os h "JNI_GetDefaultJavaVMInitArgs" in
  exists ok tbl st',
    LoadJavaVM debug os jvmpath ifn st = Some ((ok, tbl), st')
    /\ (ok = true <-> h <> 0 /\ create <> 0 /\ args <> 0)
    /\ (ok = true ->
        tbl = mkInvocationFunctions create args /\ stderr st' = stderr st).
Proof.
  intros h create args. destruct (Z.eq_dec h 0) as [Hh|Hh].
  - rewrite (LoadJavaVM_unmapped debug os jvmpath ifn st Hh).
    eexists _, _, _. split; [reflexivity|]. split.
    + split; [discriminate|]. intros [H _]. contradiction.
    + discriminate.
  - rewrite (LoadJavaVM_mapped debug os jvmpath ifn st Hh). cbv zeta.
    fold h. fold create. fold args.
    eexists _, _, _. split; [reflexivity|]. split.
    + rewrite negb_true_iff, orb_false_iff, !Z.eqb_neq. tauto.
    + intros Hok. apply negb_true_iff in Hok. rewrite Hok.
      split; [reflexivity|]. destruct debug; reflexivity.
Qed.

(** X5 (LoadJavaVM): a library that was mapped stays mapped, also when
    the call then fails for a missing entry point: the handle is added
    to the loaded libraries and nothing removes it. *)
Theorem LoadJavaVM_keeps_library_mapped (debug : bool) (os : Win32)
    (jvmpath : string) (ifn : InvocationFunctions) (st : State) :
  LoadLibrary os jvmpath <> 0 ->
  exists r st',
    LoadJavaVM debug os jvmpath ifn st = Some (r, st')
    /\ loaded_libraries st' = LoadLibrary os jvmpath :: loaded_libraries st.
Proof.
  intros Hh. rewrite (LoadJavaVM_mapped debug os jvmpath ifn st Hh). cbv zeta.
  eexists _, _. split; [reflexivity|].
  destruct (_ || _), debug; reflexivity.
Qed.

Lemma LoadJavaVM_keeps_library_mapped_witness :
  exists r st',
    LoadJavaVM false Machines.no_symbols Machines.jvm
               (mkInvocationFunctions 0 0) initial_state = Some (r, st')
    /\ loaded_libraries st' = [Sample.jvm_handle].
Proof.
  apply (LoadJavaVM_keeps_library_mapped false Machines.no_symbols
           Machines.jvm (mkInvocationFunctions 0 0) initial_state).
  vm_compute. discriminate.
Defined.

(** ** More on the registry helpers *)

Lemma GetStringFromRegistry_unfold (os : Win32) (key : HKEY)
    (name buf : string) (bufsize : Z) (st : State) :
  let info := RegQueryValueEx_info os key name in
  let size := snd info in
  let data := RegQueryValueEx_data os key name size in
  GetStringFromRegistry os key name buf bufsize st =
    if (fst (fst info) =? 0) && (snd (fst info) =? REG_SZ)
       && (size <? uint32 bufsize)
    then Some ((fst data =? 0, if fst data =? 0 then snd data else buf),
               with_os_calls
                 (fun t => (t ++ [EvRegQueryValueEx key name false;
                                  EvRegQueryValueEx key name true])%list) st)
    else Some ((false, buf),
               with_os_calls
                 (fun t => (t ++ [EvRegQueryValueEx key name false])%list) st).
Proof.
  cbv zeta. unfold GetStringFromRegistry. run_c.
  destruct (RegQueryValueEx_info os key name) as [[rc type] size]. run_c.
  destruct ((rc =? 0) && (type =? REG_SZ) && (size <? uint32 bufsize)); run_c;
    [|reflexivity].
  destruct (RegQueryValueEx_data os key name size) as [rc2 data]. run_c.
  destruct (rc2 =? 0); run_c; rewrite <- app_assoc; reflexivity.
Qed.

(** X6 (GetStringFromRegistry): the call always returns; it succeeds
    exactly when the value exists, has type REG_SZ, reports a size
    strictly below the buffer size taken as unsigned, and the read of
    the data then succeeds; the buffer then holds the data read. *)
Theorem GetStringFromRegistry_success_iff (os : Win32) (key : HKEY)
    (name buf : string) (bufsize : Z) (st : State) :
  let info := RegQueryValueEx_info os key name in
  let size := snd info in
  let data := RegQueryValueEx_data os key name size in
  exists ok buf' st',
    GetStringFromRegistry os key name buf bufsize st = Some ((ok, buf'), st')
    /\ (ok = true <->
        fst (fst info) = 0 /\ snd (fst info) = REG_SZ
        /\ size < uint32 bufsize /\ fst data = 0)
    /\ (ok = true -> buf' = snd data).
Proof.
  intros info size data.
  rewrite GetStringFromRegistry_unfold. cbv zeta. fold info size data.
  destruct (fst (fst info) =? 0) eqn:E1; cbn [andb].
  2:{ eexists _, _, _. split; [reflexivity|]. apply Z.eqb_neq in E1.
      split; [|discriminate]. split; [discriminate|tauto]. }
  destruct (snd (fst info) =? REG_SZ) eqn:E2; cbn [andb].
  2:{ eexists _, _, _. split; [reflexivity|]. apply Z.eqb_neq in E2.
      split; [|discriminate]. split; [discriminate|tauto]. }
  destruct (size <? uint32 bufsize) eqn:E3.
  2:{ eexists _, _, _. split; [reflexivity|]. apply Z.ltb_ge in E3.
      split; [|discriminate]. split; [discriminate|lia]. }
  apply Z.eqb_eq in E1, E2. apply Z.ltb_lt in E3.
  eexists _, _, _. split; [reflexivity|]. split.
  - rewrite Z.eqb_eq. tauto.
  - intros ->. reflexivity.
Qed.

(** X7 (GetStringFromRegistry): when the value is missing, is not a
    REG_SZ string, or reports a size that is not strictly below the
    buffer size, the call fails after the size query alone: the data is
    never read into the buffer, which keeps its contents. *)
Theorem GetStringFromRegistry_never_overruns (os : Win32) (key : HKEY)
    (name buf : string) (bufsize : Z) (st : State) (rc type size : Z) :
  RegQueryValueEx_info os key name = (rc, type, size) ->
  rc <> 0 \/ type <> REG_SZ \/ uint32 bufsize <= size ->
  GetStringFromRegistry os key name buf bufsize st =
    Some ((false, buf),
          with_os_calls
            (fun t => (t ++ [EvRegQueryValueEx key name false])%list) st).
Proof.
  intros Hinfo Hbad. rewrite GetStringFromRegistry_unfold. cbv zeta.
  rewrite Hinfo. cbn [fst snd].
  replace ((rc =? 0) && (type =? REG_SZ) && (size <? uint32 bufsize))
    with false; [reflexivity|].
  symmetry. rewrite !andb_false_iff, !Z.eqb_neq, Z.ltb_ge. tauto.
Qed.

(** The version string "1.3" needs four bytes: a buffer of four does not
    take it, and the data is not read. *)
Lemma GetStringFromRegistry_never_overruns_witness :
  GetStringFromRegistry Machines.public_jre Sample.root_key "CurrentVersion"
    "before" 4 initial_state =
    Some ((false, "before"),
          with_os_calls
            (fun t => (t ++ [EvRegQueryValueEx Sample.root_key
                               "CurrentVersion" false])%list)
            initial_state).
Proof.
  apply (GetStringFromRegistry_never_overruns Machines.public_jre
           Sample.root_key "CurrentVersion" "before" 4 initial_state
           0 REG_SZ 4).
  - reflexivity.
  - right. right. vm_compute. discriminate.
Defined.

(** What every run of the probe has in common. *)
Lemma GetPublicJREHome_summary (MAXPATHLEN : Z) (debug : bool)
    (os : Win32) (buf : string) (bufsize : Z) (st : State) :
  exists ok buf' st',
    GetPublicJREHome MAXPATHLEN debug os buf bufsize st = Some ((ok, buf'), st')
    /\ open_keys st' = open_keys st
    /\ loaded_libraries st' = loaded_libraries st
    /\ calibration st' = calibration st
    /\ count_events is_stat (os_calls st') = count_events is_stat (os_calls st)
    /\ count_events is_public_jre_probe (os_calls st')
       = S (count_events is_public_jre_probe (os_calls st))
    /\ (debug = false -> stdout st' = stdout st)
    /\ (ok = true -> stderr st' = stderr st)
    /\ (ok = false ->
        exists msg, msg <> "" /\ stderr st' = stderr st ++ msg).
Proof.
  unfold GetPublicJREHome, GetStringFromRegistry. explore.
  all: eexists _, _, _; (split; [reflexivity|]); run_c.
  all: split; [solve [auto using release_head, release_second]|].
  all: split; [reflexivity|].
  all: split; [reflexivity|].
  all: split; [rewrite !count_events_snoc; simpl; lia|].
  all: split;
    [ rewrite !count_events_snoc;
      try match goal with
          | H : String.eqb _ DOTRELEASE = true |- _ =>
              apply String.eqb_eq in H; subst
          end;
      cbn [is_public_jre_probe]; rewrite ?andb_false_r;
      change (String.eqb DOTRELEASE JRE_KEY) with false;
      rewrite ?andb_false_r;
      change ((HKEY_LOCAL_MACHINE =? HKEY_LOCAL_MACHINE)
              && String.eqb JRE_KEY JRE_KEY) with true; cbv iota; lia |].
  all: split; [try discriminate; reflexivity|].
  all: split; [try discriminate; reflexivity|].
  all: try discriminate.
  all: intros _; eexists; (split; [|reflexivity]); simpl; discriminate.
Qed.

(** X8 (GetPublicJREHome): the probe answers true only for a registered
    JRE of release 1.3, and the home it returns is the JavaHome string
    of the child key of that name. *)
Theorem GetPublicJREHome_sound (MAXPATHLEN : Z) (debug : bool) (os : Win32)
    (buf : string) (bufsize : Z) (st st' : State) (home : string) :
  GetPublicJREHome MAXPATHLEN debug os buf bufsize st
    = Some ((true, home), st') ->
  registered_jre_home os MAXPATHLEN bufsize home.
Proof.
  unfold GetPublicJREHome, GetStringFromRegistry. explore.
  all: intros H; inversion H; subst; clear H.
  all: repeat match goal with
              | H : (_ =? _) = true |- _ => apply Z.eqb_eq in H; subst
              | H : (_ <? _) = true |- _ => apply Z.ltb_lt in H
              | H : String.eqb _ _ = true |- _ =>
                  apply String.eqb_eq in H; subst
              end.
  all: unfold registered_jre_home; eexists _, _, _, _.
  all: repeat split; eassumption.
Qed.

Lemma GetPublicJREHome_sound_witness :
  registered_jre_home Machines.public_jre 260 260 Machines.javahome.
Proof.
  eapply (GetPublicJREHome_sound 260 false Machines.public_jre "" 260
            initial_state).
  reflexivity.
Defined.

(** X9 (GetPublicJREHome): whenever the registry holds a JRE of release
    1.3 whose strings fit the buffers, the probe succeeds with that
    JavaHome, writes nothing to stderr and holds no key open afterwards. *)
Theorem GetPublicJREHome_complete (MAXPATHLEN : Z) (debug : bool) (os : Win32)
    (buf : string) (bufsize : Z) (st : State) (home : string) :
  registered_jre_home os MAXPATHLEN bufsize home ->
  exists st',
    GetPublicJREHome MAXPATHLEN debug os buf bufsize st
      = Some ((true, home), st')
    /\ stderr st' = stderr st
    /\ open_keys st' = open_keys st.
Proof.
  intros (key & size & subkey & size' & Hopen & Hinfo & Hsize & Hdata
          & Hopen' & Hinfo' & Hsize' & Hdata').
  apply Z.ltb_lt in Hsize, Hsize'.
  unfold GetPublicJREHome, GetStringFromRegistry. run_c.
  repeat (first [ rewrite Hopen | rewrite Hinfo | rewrite Hdata
                | rewrite Hopen' | rewrite Hinfo' | rewrite Hdata'
                | rewrite Z.eqb_refl | rewrite Hsize | rewrite Hsize'
                | rewrite String.eqb_refl ];
          run_c).
  destruct debug; explore.
  all: eexists; (split; [reflexivity|]); run_c.
  all: split; [reflexivity|apply release_second].
Qed.

Lemma GetPublicJREHome_complete_witness :
  exists st',
    GetPublicJREHome 260 true Machines.public_jre "" 260 initial_state
      = Some ((true, Machines.javahome), st')
    /\ stderr st' = stderr initial_state
    /\ open_keys st' = open_keys initial_state.
Proof.
  apply (GetPublicJREHome_complete 260 true Machines.public_jre "" 260
           initial_state Machines.javahome).
  exists Sample.root_key, 4, Sample.child_key, 34.
  repeat split; vm_compute; reflexivity.
Defined.

(** X10 (GetPublicJREHome): a failure is never silent and a success
    never noisy: the probe appends a non-empty message to stderr when it
    answers false, and leaves stderr as it was when it answers true. *)
Theorem GetPublicJREHome_reports_failures (MAXPATHLEN : Z) (debug : bool)
    (os : Win32) (buf : string) (bufsize : Z) (st : State) :
  exists ok buf' st',
    GetPublicJREHome MAXPATHLEN debug os buf bufsize st = Some ((ok, buf'), st')
    /\ (ok = true -> stderr st' = stderr st)
    /\ (ok = false -> exists msg, msg <> "" /\ stderr st' = stderr st ++ msg).
Proof.
  destruct (GetPublicJREHome_summary MAXPATHLEN debug os buf bufsize st)
    as (ok & buf' & st' & Hrun & _ & _ & _ & _ & _ & _ & Hok & Hko).
  exists ok, buf', st'. auto.
Qed.

(** X11 (GetPublicJREHome): the launcher's debug flag changes neither
    the answer nor the home nor what goes to stderr; without it the
    probe writes nothing to stdout. *)
Theorem GetPublicJREHome_debug_independent (MAXPATHLEN : Z) (os : Win32)
    (buf : string) (bufsize : Z) (st : State) :
  exists ok buf' st1 st2,
    GetPublicJREHome MAXPATHLEN false os buf bufsize st = Some ((ok, buf'), st1)
    /\ GetPublicJREHome MAXPATHLEN true os buf bufsize st = Some ((ok, buf'), st2)
    /\ stderr st2 = stderr st1
    /\ stdout st1 = stdout st.
Proof.
  unfold GetPublicJREHome, GetStringFromRegistry. explore.
  all: eexists _, _, _, _; (split; [reflexivity|]).
  all: (split; [reflexivity|]); run_c; split; reflexivity.
Qed.

(** X12 (GetPublicJREHome): when the JRE key itself cannot be opened the
    probe stops at once: it answers false, names the key on stderr,
    makes no other registry call and leaves the buffer as it was. *)
Theorem GetPublicJREHome_no_jre_key (MAXPATHLEN : Z) (debug : bool)
    (os : Win32) (buf : string) (bufsize : Z) (st : State) :
  fst (RegOpenKeyEx os HKEY_LOCAL_MACHINE JRE_KEY) <> 0 ->
  GetPublicJREHome MAXPATHLEN debug os buf bufsize st =
    Some ((false, buf),
          with_stderr
            (fun e => e ++ "Error opening registry key '" ++ JRE_KEY ++ "'" ++ nl)
            (with_os_calls
               (fun t => (t ++ [EvRegOpenKeyEx HKEY_LOCAL_MACHINE JRE_KEY])%list)
               st)).
Proof.
  intros Hopen. apply Z.eqb_neq in Hopen.
  unfold GetPublicJREHome. run_c.
  destruct (RegOpenKeyEx os HKEY_LOCAL_MACHINE JRE_KEY) as [rc key].
  cbn [fst] in Hopen. run_c. repeat (rewrite Hopen; run_c). reflexivity.
Qed.

Lemma GetPublicJREHome_no_jre_key_witness :
  GetPublicJREHome 260 false no_registered_jre "c:\foo" 260 initial_state =
    Some ((false, "c:\foo"),
          with_stderr
            (fun e => e ++ "Error opening registry key '" ++ JRE_KEY ++ "'" ++ nl)
            (with_os_calls
               (fun t => (t ++ [EvRegOpenKeyEx HKEY_LOCAL_MACHINE JRE_KEY])%list)
               initial_state)).
Proof.
  apply (GetPublicJREHome_no_jre_key 260 false no_registered_jre "c:\foo" 260
           initial_state).
  vm_compute. discriminate.
Defined.

(** ** More on GetJREPath *)

Lemma GetApplicationHome_frame (os : Win32) (bufsize : Z) (st st0 : State)
    (r : bool * string) :
  GetApplicationHome os bufsize st = Some (r, st0) ->
  st0 = with_os_calls (fun t => (t ++ [EvGetModuleFileName 0 bufsize])%list) st.
Proof.
  rewrite GetApplicationHome_unfold. cbv zeta.
  destruct (strrchr _ backslash) as [i|]; [|discriminate].
  destruct (strrchr (terminate_at i _) backslash);
    intros H; inversion H; reflexivity.
Qed.

(** The control flow of [GetJREPath] once the application home has been
    computed. *)
Lemma GetJREPath_cases (DEBUG : bool) (MAXPATHLEN : Z) (debug : bool)
    (os : Win32) (pathsize : Z) (st st0 : State) (okh : bool)
    (apphome : string) :
  GetApplicationHome os pathsize st = Some ((okh, apphome), st0) ->
  let found := fun (path : string) (s : State) =>
    Some ((true, path),
          if debug
          then with_stdout (fun o => o ++ "JRE path is " ++ path ++ nl) s
          else s) in
  let public := fun (s : State) =>
    match GetPublicJREHome MAXPATHLEN debug os apphome pathsize s with
    | Some ((true, home), s3) => found home s3
    | Some ((false, p), s3) =>
        Some ((false, p),
              with_stderr
                (fun e => e ++ "Error: could not find " ++ JAVA_DLL DEBUG ++ nl)
                s3)
    | None => None
    end in
  let dll1 := apphome ++ "\bin\" ++ JAVA_DLL DEBUG in
  let dll2 := apphome ++ "\jre\bin\" ++ JAVA_DLL DEBUG in
  let st1 := with_os_calls (fun t => (t ++ [EvStat dll1])%list) st0 in
  let st2 := with_os_calls (fun t => (t ++ [EvStat dll2])%list) st1 in
  GetJREPath DEBUG MAXPATHLEN debug os pathsize st =
    if okh then
      if fits MAXPATHLEN dll1 then
        if stat os dll1 =? 0 then found apphome st1
        else if fits MAXPATHLEN dll2 then
          if stat os dll2 =? 0 then found (apphome ++ "\jre") st2
          else public st2
        else None
      else None
    else public st0.
Proof.
  intros Happ found public dll1 dll2 st1 st2.
  subst found public st2 st1 dll2 dll1.
  unfold GetJREPath. run_c. rewrite Happ. run_c.
  destruct okh; run_c.
  - destruct (fits MAXPATHLEN _); run_c; [|reflexivity].
    destruct (stat os _ =? 0); run_c; [destruct debug; reflexivity|].
    destruct (fits MAXPATHLEN _); run_c; [|reflexivity].
    destruct (stat os _ =? 0); run_c; [destruct debug; reflexivity|].
    destruct (GetPublicJREHome _ _ _ _ _ _) as [[[ok home] s3]|]; run_c;
      [|reflexivity].
    destruct ok, debug; reflexivity.
  - destruct (GetPublicJREHome _ _ _ _ _ _) as [[[ok home] s3]|]; run_c;
      [|reflexivity].
    destruct ok, debug; reflexivity.
Qed.

Lemma GetJREPath_fault (DEBUG : bool) (MAXPATHLEN : Z) (debug : bool)
    (os : Win32) (pathsize : Z) (st : State) :
  GetApplicationHome os pathsize st = None ->
  GetJREPath DEBUG MAXPATHLEN debug os pathsize st = None.
Proof. intros H. unfold GetJREPath. run_c. now rewrite H. Qed.

(** A failed search is a failed probe followed by the closing line: the
    state returned is the one the probe left, with that line appended
    to stderr; the probe started from a state whose stderr and open
    keys are those before the search and whose trace holds as many
    openings of the JRE key. *)
Lemma GetJREPath_failure_is_probe_failure (DEBUG : bool) (MAXPATHLEN : Z)
    (debug : bool) (os : Win32) (pathsize : Z) (st st' : State)
    (home : string) :
  GetJREPath DEBUG MAXPATHLEN debug os pathsize st = Some ((false, home), st') ->
  exists (buf0 : string) (s s3 : State),
    GetPublicJREHome MAXPATHLEN debug os buf0 pathsize s
      = Some ((false, home), s3)
    /\ stderr s = stderr st
    /\ open_keys s = open_keys st
    /\ st' = with_stderr
               (fun e => e ++ "Error: could not find " ++ JAVA_DLL DEBUG ++ nl)
               s3.
Proof.
  intros Hrun.
  destruct (GetApplicationHome os pathsize st) as [[[okh apphome] st0]|] eqn:Happ.
  2:{ rewrite (GetJREPath_fault _ _ _ _ _ _ Happ) in Hrun. discriminate. }
  rewrite (GetJREPath_cases DEBUG MAXPATHLEN debug os pathsize st st0 okh
             apphome Happ) in Hrun.
  cbv zeta in Hrun.
  apply GetApplicationHome_frame in Happ. subst st0.
  assert (Hpublic : forall s,
    stderr s = stderr st -> open_keys s = open_keys st ->
    match GetPublicJREHome MAXPATHLEN debug os apphome pathsize s with
    | Some ((true, home0), s3) =>
        Some ((true, home0),
              if debug
              then with_stdout (fun o => o ++ "JRE path is " ++ home0 ++ nl) s3
              else s3)
    | Some ((false, p), s3) =>
        Some ((false, p),
              with_stderr
                (fun e => e ++ "Error: could not find " ++ JAVA_DLL DEBUG ++ nl)
                s3)
    | None => None
    end = Some ((false, home), st') ->
    exists (buf0 : string) (s s3 : State),
      GetPublicJREHome MAXPATHLEN debug os buf0 pathsize s
        = Some ((false, home), s3)
      /\ stderr s = stderr st
      /\ open_keys s = open_keys st
      /\ st' = with_stderr
                 (fun e => e ++ "Error: could not find " ++ JAVA_DLL DEBUG ++ nl)
                 s3).
  { intros s Herr Hkeys H.
    destruct (GetPublicJREHome MAXPATHLEN debug os apphome pathsize s)
      as [[[okp bufp] s3]|] eqn:Hp; [|discriminate].
    destruct okp; inversion H; subst; clear H.
    exists apphome, s, s3. auto. }
  destruct okh.
  - destruct (fits MAXPATHLEN _); [|discriminate].
    destruct (stat os _ =? 0); [discriminate|].
    destruct (fits MAXPATHLEN _); [|discriminate].
    destruct (stat os _ =? 0); [discriminate|].
    revert Hrun. apply Hpublic; reflexivity.
  - revert Hrun. apply Hpublic; reflexivity.
Qed.

(** What every returning run of [GetJREPath] has in common. *)
Lemma GetJREPath_summary (DEBUG : bool) (MAXPATHLEN : Z) (debug : bool)
    (os : Win32) (pathsize : Z) (st st' : State) (ok : bool) (home : string) :
  GetJREPath DEBUG MAXPATHLEN debug os pathsize st = Some ((ok, home), st') ->
  open_keys st' = open_keys st
  /\ (ok = true -> stderr st' = stderr st)
  /\ (ok = true ->
      count_events is_public_jre_probe (os_calls st')
        = count_events is_public_jre_probe (os_calls st) ->
      stat os (home ++ "\bin\" ++ JAVA_DLL DEBUG) = 0).
Proof.
  intros Hrun.
  destruct (GetApplicationHome os pathsize st) as [[[okh apphome] st0]|] eqn:Happ.
  2:{ rewrite (GetJREPath_fault _ _ _ _ _ _ Happ) in Hrun. discriminate. }
  rewrite (GetJREPath_cases DEBUG MAXPATHLEN debug os pathsize st st0 okh
             apphome Happ) in Hrun.
  cbv zeta in Hrun.
  apply GetApplicationHome_frame in Happ. subst st0.
  assert (Hpublic : forall s,
    open_keys s = open_keys st -> stderr s = stderr st ->
    count_events is_public_jre_probe (os_calls s)
      = count_events is_public_jre_probe (os_calls st) ->
    match GetPublicJREHome MAXPATHLEN debug os apphome pathsize s with
    | Some ((true, home0), s3) =>
        Some ((true, home0),
              if debug
              then with_stdout (fun o => o ++ "JRE path is " ++ home0 ++ nl) s3
              else s3)
    | Some ((false, p), s3) =>
        Some ((false, p),
              with_stderr
                (fun e => e ++ "Error: could not find " ++ JAVA_DLL DEBUG ++ nl)
                s3)
    | None => None
    end = Some ((ok, home), st') ->
    open_keys st' = open_keys st
    /\ (ok = true -> stderr st' = stderr st)
    /\ (ok = true ->
        count_events is_public_jre_probe (os_calls st')
          = count_events is_public_jre_probe (os_calls st) ->
        stat os (home ++ "\bin\" ++ JAVA_DLL DEBUG) = 0)).
  { intros s Hkeys Herr Hcnt H.
    destruct (GetPublicJREHome_summary MAXPATHLEN debug os apphome pathsize s)
      as (okp & bufp & s3 & Hp & Hk & _ & _ & _ & Hprobe & _ & Hquiet & Hloud).
    rewrite Hp in H. destruct okp; inversion H; subst; clear H.
    - split; [destruct debug; simpl; congruence|].
      split; [intros _; destruct debug; simpl; rewrite Hquiet; auto|].
      intros _ Hsame. exfalso.
      destruct debug; unfold with_stdout in Hsame; cbn [os_calls] in Hsame; lia.
    - split; [simpl; congruence|].
      split; discriminate. }
  destruct okh.
  - destruct (fits MAXPATHLEN (apphome ++ "\bin\" ++ JAVA_DLL DEBUG));
      [|discriminate].
    destruct (stat os (apphome ++ "\bin\" ++ JAVA_DLL DEBUG) =? 0) eqn:E1.
    { inversion Hrun; subst; clear Hrun. apply Z.eqb_eq in E1.
      split; [destruct debug; reflexivity|].
      split; [intros _; destruct debug; reflexivity|].
      intros _ _. exact E1. }
    destruct (fits MAXPATHLEN (apphome ++ "\jre\bin\" ++ JAVA_DLL DEBUG));
      [|discriminate].
    destruct (stat os (apphome ++ "\jre\bin\" ++ JAVA_DLL DEBUG) =? 0) eqn:E2.
    { inversion Hrun; subst; clear Hrun. apply Z.eqb_eq in E2.
      split; [destruct debug; reflexivity|].
      split; [intros _; destruct debug; reflexivity|].
      intros _ _.
      rewrite string_app_assoc. exact E2. }
    revert Hrun. apply Hpublic; try reflexivity.
    run_c. rewrite !count_events_snoc. simpl. lia.
  - revert Hrun. apply Hpublic; try reflexivity.
    run_c. rewrite !count_events_snoc. simpl. lia.
Qed.

(** X13 (GetJREPath): for a launcher whose application home cannot be
    computed (it sits in a drive root), no file is looked for: the
    result, flag and home, is that of one registry probe started on the
    state GetApplicationHome left. *)
Theorem GetJREPath_without_application_home (DEBUG : bool) (MAXPATHLEN : Z)
    (debug : bool) (os : Win32) (pathsize : Z) (st st0 : State)
    (buf0 : string) :
  GetApplicationHome os pathsize st = Some ((false, buf0), st0) ->
  exists ok home st' s3,
    GetJREPath DEBUG MAXPATHLEN debug os pathsize st = Some ((ok, home), st')
    /\ GetPublicJREHome MAXPATHLEN debug os buf0 pathsize st0
       = Some ((ok, home), s3)
    /\ os_calls st' = os_calls s3
    /\ count_events is_stat (os_calls st') = count_events is_stat (os_calls st).
Proof.
  intros Happ.
  rewrite (GetJREPath_cases DEBUG MAXPATHLEN debug os pathsize st st0 false
             buf0 Happ).
  cbv zeta. cbv iota.
  apply GetApplicationHome_frame in Happ.
  destruct (GetPublicJREHome_summary MAXPATHLEN debug os buf0 pathsize st0)
    as (ok & home & s3 & Hp & _ & _ & _ & Hstat & _).
  rewrite Hp.
  assert (Hcount : count_events is_stat (os_calls s3)
                   = count_events is_stat (os_calls st)).
  { rewrite Hstat. subst st0. run_c. rewrite count_events_snoc. simpl. lia. }
  destruct ok; eexists _, _, _, s3; (split; [reflexivity|]);
    (split; [reflexivity|]); destruct debug; auto.
Qed.

Lemma GetJREPath_without_application_home_witness :
  exists ok home st' s3,
    GetJREPath false 260 false Machines.drive_root 260 initial_state
      = Some ((ok, home), st')
    /\ GetPublicJREHome 260 false Machines.drive_root "" 260
         (with_os_calls (fun t => (t ++ [EvGetModuleFileName 0 260])%list)
                        initial_state)
       = Some ((ok, home), s3)
    /\ os_calls st' = os_calls s3
    /\ count_events is_stat (os_calls st')
       = count_events is_stat (os_calls initial_state).
Proof.
  exact (GetJREPath_without_application_home false 260 false
           Machines.drive_root 260 initial_state _ "" eq_refl).
Defined.

(** X14 (GetJREPath): a successful search writes nothing to stderr.
    A failed search is a failed registry probe followed by one line:
    the probe ran from a state with the stderr of the call's start,
    appended its own non-empty message, and the state returned is the
    one the probe left with the line that names the library appended,
    so stderr ends with the probe's message and then that line. *)
Theorem GetJREPath_reports_failure (DEBUG : bool) (MAXPATHLEN : Z)
    (debug : bool) (os : Win32) (pathsize : Z) (st st' : State)
    (ok : bool) (home : string) :
  GetJREPath DEBUG MAXPATHLEN debug os pathsize st = Some ((ok, home), st') ->
  (ok = true -> stderr st' = stderr st)
  /\ (ok = false ->
      exists (buf0 : string) (s s3 : State) (msg : string),
        GetPublicJREHome MAXPATHLEN debug os buf0 pathsize s
          = Some ((false, home), s3)
        /\ stderr s = stderr st
        /\ stderr s3 = stderr s ++ msg
        /\ msg <> ""
        /\ st' = with_stderr
                   (fun e => e ++ "Error: could not find " ++ JAVA_DLL DEBUG ++ nl)
                   s3
        /\ stderr st' = stderr st ++ msg
                          ++ "Error: could not find " ++ JAVA_DLL DEBUG ++ nl).
Proof.
  intros Hrun. split.
  - intros ->.
    destruct (GetJREPath_summary _ _ _ _ _ _ _ _ _ Hrun) as (_ & H & _).
    exact (H eq_refl).
  - intros ->.
    destruct (GetJREPath_failure_is_probe_failure _ _ _ _ _ _ _ _ Hrun)
      as (buf0 & s & s3 & Hp & Herr & _ & Hst').
    destruct (GetPublicJREHome_summary MAXPATHLEN debug os buf0 pathsize s)
      as (okp & bufp & s3' & Hp' & _ & _ & _ & _ & _ & _ & _ & Hloud).
    rewrite Hp in Hp'. inversion Hp'; subst okp bufp s3'; clear Hp'.
    destruct (Hloud eq_refl) as (msg & Hmsg & Hs3).
    exists buf0, s, s3, msg.
    split; [exact Hp|]. split; [exact Herr|]. split; [exact Hs3|].
    split; [exact Hmsg|]. split; [exact Hst'|].
    rewrite Hst'. cbn [stderr with_stderr]. rewrite Hs3, Herr.
    now rewrite string_app_assoc.
Qed.

Lemma GetJREPath_reports_failure_witness :
  exists st',
    GetJREPath false 260 false no_registered_jre 260 initial_state
      = Some ((false, "c:\foo"), st')
    /\ stderr st' = "Error opening registry key '" ++ JRE_KEY ++ "'" ++ nl
                      ++ "Error: could not find java.dll" ++ nl
    /\ ((false = true -> stderr st' = stderr initial_state)
        /\ (false = false ->
            exists (buf0 : string) (s s3 : State) (msg : string),
              GetPublicJREHome 260 false no_registered_jre buf0 260 s
                = Some ((false, "c:\foo"), s3)
              /\ stderr s = stderr initial_state
              /\ stderr s3 = stderr s ++ msg
              /\ msg <> ""
              /\ st' = with_stderr
                         (fun e => e ++ "Error: could not find "
                                     ++ JAVA_DLL false ++ nl) s3
              /\ stderr st' = stderr initial_state ++ msg
                                ++ "Error: could not find "
                                ++ JAVA_DLL false ++ nl)).
Proof.
  eexists. split; [reflexivity|]. split; [reflexivity|].
  apply (GetJREPath_reports_failure false 260 false no_registered_jre 260
           initial_state _ false "c:\foo").
  reflexivity.
Defined.

(** X15 (GetJREPath): whichever way the search ends, no registry key is
    left open: the open keys after the call are those before it. *)
Theorem GetJREPath_releases_keys (DEBUG : bool) (MAXPATHLEN : Z)
    (debug : bool) (os : Win32) (pathsize : Z) (st st' : State)
    (r : bool * string) :
  GetJREPath DEBUG MAXPATHLEN debug os pathsize st = Some (r, st') ->
  open_keys st' = open_keys st.
Proof.
  destruct r as [ok home]. intros Hrun.
  apply (GetJREPath_summary _ _ _ _ _ _ _ _ _ Hrun).
Qed.

Lemma GetJREPath_releases_keys_witness :
  exists st',
    GetJREPath false 260 true Machines.public_jre 260 initial_state
      = Some ((true, Machines.javahome), st')
    /\ open_keys st' = open_keys initial_state.
Proof.
  eexists. split; [reflexivity|].
  apply (GetJREPath_releases_keys false 260 true Machines.public_jre 260
           initial_state _ (true, Machines.javahome)).
  reflexivity.
Defined.

(** X16 (GetJREPath): a home found without consulting the registry is a
    directory that was seen to hold [bin\java.dll] (the build's
    JAVA_DLL): [stat] of that file returned zero during the call. *)
Theorem GetJREPath_local_home_has_java_dll (DEBUG : bool) (MAXPATHLEN : Z)
    (debug : bool) (os : Win32) (pathsize : Z) (st st' : State)
    (home : string) :
  GetJREPath DEBUG MAXPATHLEN debug os pathsize st = Some ((true, home), st') ->
  count_events is_public_jre_probe (os_calls st')
    = count_events is_public_jre_probe (os_calls st) ->
  stat os (home ++ "\bin\" ++ JAVA_DLL DEBUG) = 0.
Proof.
  intros Hrun Hsame.
  destruct (GetJREPath_summary _ _ _ _ _ _ _ _ _ Hrun) as (_ & _ & H).
  apply H; [reflexivity|assumption].
Qed.

Lemma GetJREPath_local_home_has_java_dll_witness :
  stat Machines.private_jre ("c:\foo\jre" ++ "\bin\" ++ JAVA_DLL false) = 0.
Proof.
  eapply (GetJREPath_local_home_has_java_dll false 260 false
            Machines.private_jre 260 initial_state).
  - reflexivity.
  - reflexivity.
Defined.

(** X17 (GetJREPath): the search returns unless it runs into one of
    its two unchecked operations.  It faults exactly when the module
    file name holds no backslash (the null result of [strrchr] in
    GetApplicationHome), or the application home is resolved and
    [<apphome>\bin\<JAVA_DLL>] does not fit [javadll], or that file is
    missing and [<apphome>\jre\bin\<JAVA_DLL>] does not fit; whatever
    the files and the registry answer otherwise. *)
Theorem GetJREPath_returns_iff (DEBUG : bool) (MAXPATHLEN : Z)
    (debug : bool) (os : Win32) (pathsize : Z) (st : State) :
  GetJREPath DEBUG MAXPATHLEN debug os pathsize st = None
  <-> (strrchr (GetModuleFileName os 0 pathsize) backslash = None
       \/ exists (apphome : string) (st0 : State),
            GetApplicationHome os pathsize st = Some ((true, apphome), st0)
            /\ (fits MAXPATHLEN (apphome ++ "\bin\" ++ JAVA_DLL DEBUG) = false
                \/ (stat os (apphome ++ "\bin\" ++ JAVA_DLL DEBUG) <> 0
                    /\ fits MAXPATHLEN
                         (apphome ++ "\jre\bin\" ++ JAVA_DLL DEBUG) = false))).
Proof.
  destruct (GetApplicationHome os pathsize st) as [[[okh apphome] st0]|] eqn:Happ.
  - assert (Hp : strrchr (GetModuleFileName os 0 pathsize) backslash <> None).
    { intros E. rewrite GetApplicationHome_unfold in Happ. cbv zeta in Happ.
      rewrite E in Happ. discriminate. }
    rewrite (GetJREPath_cases DEBUG MAXPATHLEN debug os pathsize st st0 okh
               apphome Happ).
    cbv zeta.
    assert (Hpublic : forall s,
      match GetPublicJREHome MAXPATHLEN debug os apphome pathsize s with
      | Some ((true, home0), s3) =>
          Some ((true, home0),
                if debug
                then with_stdout (fun o => o ++ "JRE path is " ++ home0 ++ nl) s3
                else s3)
      | Some ((false, p), s3) =>
          Some ((false, p),
                with_stderr
                  (fun e => e ++ "Error: could not find " ++ JAVA_DLL DEBUG ++ nl)
                  s3)
      | None => None
      end <> None).
    { intros s.
      destruct (GetPublicJREHome_summary MAXPATHLEN debug os apphome pathsize s)
        as (ok & home & s3 & Hrun & _).
      rewrite Hrun. destruct ok; discriminate. }
    destruct okh.
    + destruct (fits MAXPATHLEN (apphome ++ "\bin\" ++ JAVA_DLL DEBUG)) eqn:F1.
      * destruct (stat os (apphome ++ "\bin\" ++ JAVA_DLL DEBUG) =? 0) eqn:E1.
        { apply Z.eqb_eq in E1. split; [discriminate|].
          intros [E|(a & s0 & Ha & [F|[Hs _]])]; [contradiction| |].
          - inversion Ha; subst. congruence.
          - inversion Ha; subst. contradiction. }
        apply Z.eqb_neq in E1.
        destruct (fits MAXPATHLEN (apphome ++ "\jre\bin\" ++ JAVA_DLL DEBUG))
          eqn:F2.
        { split.
          - intros H. exfalso. revert H.
            destruct (stat os _ =? 0); [discriminate|]. apply Hpublic.
          - intros [E|(a & s0 & Ha & [F|[_ F]])]; [contradiction| |];
              inversion Ha; subst; congruence. }
        split; [|reflexivity].
        intros _. right. exists apphome, st0. auto.
      * split; [|reflexivity].
        intros _. right. exists apphome, st0. auto.
    + split.
      * intros H. exfalso. revert H. apply Hpublic.
      * intros [E|(a & s0 & Ha & _)]; [contradiction|discriminate].
  - rewrite (GetJREPath_fault _ _ _ _ _ _ Happ).
    split; [intros _; left|reflexivity].
    rewrite GetApplicationHome_unfold in Happ. cbv zeta in Happ.
    destruct (strrchr (GetModuleFileName os 0 pathsize) backslash) as [i|];
      [|reflexivity].
    destruct (strrchr (terminate_at i _) backslash); discriminate.
Qed.

(** ** More on the interval timer *)

(** Within the 64-bit range the conversion is the truncated quotient. *)
Lemma Counter2Micros_quotient (counts : Z) (st : State) :
  counterAvailable st <> 0 ->
  counterInitialized st = true ->
  counterFrequency st <> 0 ->
  - 2 ^ 63 < counts * 1000000 < 2 ^ 63 ->
  Counter2Micros counts st
    = Some (Z.quot (counts * 1000000) (counterFrequency st), st).
Proof.
  intros Ha Hi Hf Hr.
  rewrite (Counter2Micros_available counts st Ha Hi).
  apply Z.eqb_neq in Hf. rewrite Hf. apply Z.eqb_neq in Hf.
  rewrite (wrap64_small (counts * 1000)) by lia.
  rewrite (wrap64_small (counts * 1000 * 1000)) by lia.
  replace (counts * 1000 * 1000) with (counts * 1000000) by lia.
  replace (counts * 1000000 =? - 2 ^ 63) with false
    by (symmetry; apply Z.eqb_neq; lia).
  cbn [andb].
  rewrite wrap64_small; [reflexivity|].
  apply quot_in_range; [lia|assumption].
Qed.

(** X18 (Counter2Micros): with a positive frequency and tick counts
    whose product with one million fits 64 bits, the conversion is
    monotone: more ticks never convert to fewer microseconds. *)
Theorem Counter2Micros_monotone (c1 c2 : Z) (st : State) :
  counterAvailable st <> 0 ->
  counterInitialized st = true ->
  0 < counterFrequency st ->
  - 2 ^ 63 < c1 * 1000000 ->
  c2 * 1000000 < 2 ^ 63 ->
  c1 <= c2 ->
  exists r1 r2,
    Counter2Micros c1 st = Some (r1, st)
    /\ Counter2Micros c2 st = Some (r2, st)
    /\ r1 <= r2.
Proof.
  intros Ha Hi Hf H1 H2 Hle.
  rewrite (Counter2Micros_quotient c1 st Ha Hi) by lia.
  rewrite (Counter2Micros_quotient c2 st Ha Hi) by lia.
  eexists _, _. split; [reflexivity|]. split; [reflexivity|].
  apply Z.quot_le_mono; lia.
Qed.

Lemma Counter2Micros_monotone_witness :
  let st := with_calibration 1 true 3579545 initial_state in
  exists r1 r2,
    Counter2Micros 1000 st = Some (r1, st)
    /\ Counter2Micros 1001 st = Some (r2, st)
    /\ r1 <= r2.
Proof.
  apply (Counter2Micros_monotone 1000 1001
           (with_calibration 1 true 3579545 initial_state));
    simpl; try reflexivity; lia.
Defined.

(** X19 (Counter2Micros): for a non-negative tick count and a positive
    frequency the result is the elapsed time rounded down to a whole
    microsecond: [r * f <= counts * 1000000 < (r + 1) * f]. *)
Theorem Counter2Micros_rounds_down (counts : Z) (st : State) :
  counterAvailable st <> 0 ->
  counterInitialized st = true ->
  0 < counterFrequency st ->
  0 <= counts ->
  counts * 1000000 < 2 ^ 63 ->
  exists r,
    Counter2Micros counts st = Some (r, st)
    /\ 0 <= r
    /\ r * counterFrequency st <= counts * 1000000
       < (r + 1) * counterFrequency st.
Proof.
  intros Ha Hi Hf H0 Hr.
  rewrite (Counter2Micros_quotient counts st Ha Hi) by lia.
  eexists. split; [reflexivity|].
  pose proof (Z.mul_quot_le (counts * 1000000) (counterFrequency st)) as Hlo.
  pose proof (Z.mul_succ_quot_gt (counts * 1000000) (counterFrequency st)) as Hhi.
  pose proof (Z.quot_pos (counts * 1000000) (counterFrequency st)) as Hpos.
  unfold Z.succ in Hhi. lia.
Qed.

Lemma Counter2Micros_rounds_down_witness :
  let st := with_calibration 1 true 3579545 initial_state in
  exists r,
    Counter2Micros 1000 st = Some (r, st)
    /\ 0 <= r
    /\ r * counterFrequency st <= 1000 * 1000000 < (r + 1) * counterFrequency st.
Proof.
  apply (Counter2Micros_rounds_down 1000
           (with_calibration 1 true 3579545 initial_state));
    simpl; try reflexivity; lia.
Defined.

(** X20 (Counter2Micros): the division truncates toward zero, so the
    conversion is odd: a negated tick count converts to the negated
    result (within the 64-bit range, for a non-zero frequency). *)
Theorem Counter2Micros_odd (counts : Z) (st : State) :
  counterAvailable st <> 0 ->
  counterInitialized st = true ->
  counterFrequency st <> 0 ->
  - 2 ^ 63 < counts * 1000000 < 2 ^ 63 ->
  exists r,
    Counter2Micros counts st = Some (r, st)
    /\ Counter2Micros (- counts) st = Some (- r, st).
Proof.
  intros Ha Hi Hf Hr.
  rewrite (Counter2Micros_quotient counts st Ha Hi Hf Hr).
  rewrite (Counter2Micros_quotient (- counts) st Ha Hi Hf) by lia.
  eexists. split; [reflexivity|].
  rewrite Z.mul_opp_l, Z.quot_opp_l by assumption. reflexivity.
Qed.

Lemma Counter2Micros_odd_witness :
  let st := with_calibration 1 true 3579545 initial_state in
  exists r,
    Counter2Micros 1000 st = Some (r, st)
    /\ Counter2Micros (- 1000) st = Some (- r, st).
Proof.
  apply (Counter2Micros_odd 1000
           (with_calibration 1 true 3579545 initial_state));
    simpl; try reflexivity; lia.
Defined.

(** X21 (CounterGet): with the counter available, [n] calls in a row
    return the next [n] readings of the performance counter, one
    reading per call, and leave the calibration untouched. *)
Theorem CounterGet_successive_readings (os : Win32) (n : nat) (st : State) :
  counterAvailable st <> 0 ->
  counterInitialized st = true ->
  let k := count_events is_counter_query (os_calls st) in
  exists st',
    timer_calls os (repeat CallCounterGet n) st
      = Some (map (QueryPerformanceCounter os) (seq k n), st')
    /\ count_events is_counter_query (os_calls st') = (k + n)%nat
    /\ calibration st' = calibration st.
Proof.
  revert st. induction n as [|n IH]; intros st Ha Hi k.
  - exists st. split; [reflexivity|]. split; [subst k; lia|reflexivity].
  - simpl repeat. simpl timer_calls. unfold bind at 1.
    rewrite (CounterGet_later os st Hi).
    apply Z.eqb_neq in Ha. rewrite Ha. apply Z.eqb_neq in Ha.
    set (st1 := with_os_calls
                  (fun t => (t ++ [EvQueryPerformanceCounter])%list) st).
    assert (Hk1 : count_events is_counter_query (os_calls st1) = S k).
    { subst st1 k. run_c. rewrite count_events_snoc. simpl. lia. }
    destruct (IH st1 Ha Hi) as (st' & Hrun & Hcnt & Hcal).
    rewrite Hk1 in Hrun, Hcnt.
    unfold bind at 1. rewrite Hrun. unfold ret.
    exists st'. split; [reflexivity|]. split; [lia|exact Hcal].
Qed.

Lemma CounterGet_successive_readings_witness :
  let st := with_calibration 1 true 1000000 initial_state in
  exists st',
    timer_calls Machines.colocated (repeat CallCounterGet 3) st
      = Some ([1000; 2000; 3000], st')
    /\ count_events is_counter_query (os_calls st') = 3%nat
    /\ calibration st' = calibration st.
Proof.
  apply (CounterGet_successive_readings Machines.colocated 3
           (with_calibration 1 true 1000000 initial_state)).
  - simpl. lia.
  - reflexivity.
Defined.
